(** * The Kelly position-sizing engine of [agent_pipeline/utils/kelly_optimizer.py]

    A shallow embedding of [AdvancedKellyOptimizer] and of the two records it
    consumes and produces, followed by the properties of the engine.

    Numbers.  The general statements are proved over exact rationals ([Q]):
    every comparison, [min]/[max] and the four arithmetic operations are
    the rational ones, and computed numbers are compared with [==] ([Qeq]).
    Python's floats differ from the rationals in three ways: they round,
    they overflow to infinity and NaN, and the true division of a very
    large int raises OverflowError.  The rational model has none of the
    three.  Where a statement needs it, it therefore carries the hypothesis
    [within_float_range] (a positive price is not below the smallest normal
    float, the hours to resolution are below 2^1024), under which the float
    computation neither overflows at [1 / price] nor raises at the week
    count, and it is stated as a bound or a case distinction rather than as
    an equality that holds only up to rounding.  What the floats themselves
    do on a given input is computed on a binary64 replica of the engine
    ([B64], on the kernel's primitive floats).  The one operation of the
    source that is not rational, [x ** y] with a fractional exponent, is a
    parameter ([float_pow]): nothing is assumed about it.

    Dictionaries.  The list of existing positions is a list of Python dicts
    and the multi-market result is a dict keyed by [market_id]; both are
    [gmap]s with string keys.  The confidence curve, a dict with float keys
    that the code only reads through [sorted(curve.keys())] and [curve[k]],
    is an association list. *)

From Stdlib Require Import QArith Qround Qabs Qminmax Lqa ZArith Lia.
From Stdlib Require Import String Ascii DecimalString Floats.
From stdpp Require Import gmap strings list fin_maps.

Local Open Scope string_scope.
Local Open Scope Q_scope.

#[local] Set Warnings "-inexact-float".

(** ** Python primitives on numbers *)

Module Py.

(** [a < b], [a <= b] on floats, as booleans. *)
Definition ltb (a b : Q) : bool := negb (Qle_bool b a).
Definition leb (a b : Q) : bool := Qle_bool a b.

(** [max(a, b)] keeps its first argument unless the second is strictly
    greater; [min(a, b)] keeps its first unless the second is strictly
    smaller. *)
Definition max (a b : Q) : Q := if ltb a b then b else a.
Definition min (a b : Q) : Q := if ltb b a then b else a.

(** [sum(xs)]: left to right from the integer 0. *)
Definition sum (xs : list Q) : Q := fold_left Qplus xs 0.

(** What a call either produces: a value, or a raised exception. *)
Inductive exn : Set := ZeroDivisionError.

Inductive outcome (A : Type) : Type :=
| Returned (a : A)
| Raised (e : exn).
Arguments Returned {A} a.
Arguments Raised {A} e.

(** [a / b] on floats raises when [b] is zero.  Used where the source
    divides by a value it has not checked (the scale factor of the
    multi-market path); every other division of the engine is by a constant
    or behind a guard that makes the divisor non-zero (the price and the
    odds after [price <= 0 or price >= 1] and [odds <= 0], the gap between
    two distinct curve keys), and is written with the rational [/]. *)
Definition div (a b : Q) : outcome Q :=
  if Qeq_bool b 0 then Raised ZeroDivisionError else Returned (a / b).

End Py.

Infix "<?" := Py.ltb (at level 70, no associativity) : Q_scope.
Infix "<=?" := Py.leb (at level 70, no associativity) : Q_scope.

(** ** Number formatting: [f"{x:.3f}"] and [f"{x:.1%}"]

    These format an exact rational.  Python formats the binary value of the
    float, which differs from the decimal written in the source: 0.0005
    prints 0.001 and 0.0625 prints 0.062, where the rationals 1/2000 and
    1/16 are both ties.  [B64.fixed] formats the binary value. *)

Module Fmt.

(** Round a non-negative rational to the nearest integer, ties to even. *)
Definition round_half_even (x : Q) : Z :=
  let fl := Qfloor x in
  let r := x - inject_Z fl in
  if r <? 1 # 2 then fl
  else if 1 # 2 <? r then (fl + 1)%Z
  else if Z.even fl then fl else (fl + 1)%Z.

Definition digits_of (n : Z) : string :=
  NilZero.string_of_uint (N.to_uint (Z.to_N n)).

Fixpoint zeros (n : nat) : string :=
  match n with
  | O => EmptyString
  | S k => String "0"%char (zeros k)
  end.

(** [digits_of n] padded on the left with zeros to [width] characters. *)
Definition pad_digits (width : nat) (n : Z) : string :=
  let s := digits_of n in
  zeros (width - String.length s) +:+ s.

(** [format(x, ".<d>f")] for [d > 0]. *)
Definition fixed (d : nat) (x : Q) : string :=
  let scale := (10 ^ Z.of_nat d)%Z in
  let n := round_half_even (Qabs x * inject_Z scale) in
  (if x <? 0 then "-" else "")
    +:+ digits_of (n / scale) +:+ "." +:+ pad_digits d (n mod scale).

(** [format(x, ".<d>%")]: the value times 100, fixed, then a percent sign. *)
Definition percent (d : nat) (x : Q) : string :=
  fixed d (x * 100) +:+ "%".

End Fmt.

(** ** The data model *)

Inductive KellyMode : Set :=
| FULL            (* "full" *)
| FRACTIONAL_50   (* "half" *)
| FRACTIONAL_25   (* "quarter" *)
| ADAPTIVE.       (* "adaptive" *)

Definition KellyMode_value (m : KellyMode) : string :=
  match m with
  | FULL => "full"
  | FRACTIONAL_50 => "half"
  | FRACTIONAL_25 => "quarter"
  | ADAPTIVE => "adaptive"
  end.

Record MarketOpportunity : Type := {
  probability_estimate : Q;
  market_price : Q;
  confidence_level : Q;
  liquidity : Q;
  bid_ask_spread : Q;
  time_to_resolution : Z;
  market_id : string
}.

Record KellyResult : Type := {
  kelly_fraction : Q;
  adjusted_fraction : Q;
  expected_value : Q;
  confidence_adjustment : Q;
  risk_adjustment : Q;
  final_position_size : Q;
  recommendation : string;
  reasoning : string
}.

(** The engine: the six arguments of [__init__].  The other attributes that
    [__init__] sets are constants and follow as functions of the engine. *)
Record AdvancedKellyOptimizer : Type := {
  kelly_mode : KellyMode;
  max_position_size : Q;
  min_confidence_threshold : Q;
  max_correlation_exposure : Q;
  drawdown_protection : bool;
  stress_test : bool
}.

(** [AdvancedKellyOptimizer()] with every default. *)
Definition default_optimizer : AdvancedKellyOptimizer := {|
  kelly_mode := FRACTIONAL_50;
  max_position_size := 0.15;
  min_confidence_threshold := 0.6;
  max_correlation_exposure := 0.3;
  drawdown_protection := true;
  stress_test := true
|}.

Definition volatility_penalty (self : AdvancedKellyOptimizer) : Q := 0.8.
Definition liquidity_penalty (self : AdvancedKellyOptimizer) : Q := 0.9.
Definition time_decay_factor (self : AdvancedKellyOptimizer) : Q := 0.95.

Definition _build_confidence_curve (self : AdvancedKellyOptimizer) : list (Q * Q) :=
  [ (0.5, 0.0); (0.6, 0.2); (0.7, 0.5); (0.8, 0.8); (0.9, 0.95); (1.0, 1.0) ].

Definition confidence_curve (self : AdvancedKellyOptimizer) : list (Q * Q) :=
  _build_confidence_curve self.

(** ** The engine's methods *)

Section Engine.

(** [x ** y] on floats, for the time-decay penalty. *)
Variable float_pow : Q -> Q -> Q.

Implicit Types (self : AdvancedKellyOptimizer) (opportunity : MarketOpportunity).

Definition _validate_opportunity self opportunity : bool :=
  if negb ((0 <? probability_estimate opportunity)
           && (probability_estimate opportunity <? 1)) then false
  else if negb ((0 <? market_price opportunity)
                && (market_price opportunity <? 1)) then false
  else if negb ((0 <=? confidence_level opportunity)
                && (confidence_level opportunity <=? 1)) then false
  else if liquidity opportunity <? 0 then false
  else true.

Definition _calculate_base_kelly self opportunity : Q :=
  let p := probability_estimate opportunity in
  let price := market_price opportunity in
  if (price <=? 0) || (1 <=? price) then 0.0
  else
    let odds := (1 / price) - 1 in
    let q := 1 - p in
    if odds <=? 0 then 0.0
    else
      let kelly := (p * odds - q) / odds in
      Py.max kelly 0.0.

Definition _calculate_expected_value self opportunity : Q :=
  let p := probability_estimate opportunity in
  let price := market_price opportunity in
  if (price <=? 0) || (1 <=? price) then 0.0
  else p / price - 1.

(** [sorted(curve.keys())]: insertion sort of the keys. *)
Fixpoint insert_sorted (x : Q) (xs : list Q) : list Q :=
  match xs with
  | [] => [x]
  | y :: ys => if x <=? y then x :: xs else y :: insert_sorted x ys
  end.

Definition sorted (xs : list Q) : list Q := foldr insert_sorted [] xs.

(** [curve[k]]; every key the code looks up was read from [curve.keys()],
    so the lookup never misses. *)
Definition curve_get (curve : list (Q * Q)) (k : Q) : Q :=
  match List.find (fun kv => Qeq_bool (fst kv) k) curve with
  | Some kv => snd kv
  | None => 0
  end.

(** The interpolation loop over [i] in [range(len(confidence_levels) - 1)],
    as a recursion over the adjacent pairs of [confidence_levels]. *)
Fixpoint interpolate (curve : list (Q * Q)) (confidence : Q)
    (confidence_levels : list Q) : Q :=
  match confidence_levels with
  | x1 :: ((x2 :: _) as rest) =>
      if (x1 <=? confidence) && (confidence <=? x2) then
        let y1 := curve_get curve x1 in
        let y2 := curve_get curve x2 in
        y1 + (y2 - y1) * (confidence - x1) / (x2 - x1)
      else interpolate curve confidence rest
  | _ => 0.0
  end.

Definition _get_confidence_multiplier self (confidence : Q) : Q :=
  let curve := confidence_curve self in
  let confidence_levels := sorted (map fst curve) in
  let first := List.hd 0 confidence_levels in
  let last := List.last confidence_levels 0 in
  if confidence <=? first then curve_get curve first
  else if last <=? confidence then curve_get curve last
  else interpolate curve confidence confidence_levels.

Definition _apply_confidence_adjustment self (kelly confidence : Q) : Q * Q :=
  if confidence <? min_confidence_threshold self then (0.0, 1.0)
  else
    let confidence_multiplier := _get_confidence_multiplier self confidence in
    let adjusted_kelly := kelly * confidence_multiplier in
    let penalty := 1 - confidence_multiplier in
    (adjusted_kelly, penalty).

Definition _apply_risk_adjustments self (kelly : Q) opportunity : Q * Q :=
  let total_penalty := 0.0 in
  let adjusted_kelly := kelly in
  (* Liquidity penalty *)
  let '(adjusted_kelly, total_penalty) :=
    if liquidity opportunity <? 1000 then
      let liquidity_mult := liquidity_penalty self in
      (adjusted_kelly * liquidity_mult, total_penalty + (1 - liquidity_mult))
    else (adjusted_kelly, total_penalty) in
  (* Spread penalty *)
  let '(adjusted_kelly, total_penalty) :=
    if 0.05 <? bid_ask_spread opportunity then
      let spread_mult := 1 - (bid_ask_spread opportunity * 2) in
      let spread_mult := Py.max spread_mult 0.5 in
      (adjusted_kelly * spread_mult, total_penalty + (1 - spread_mult))
    else (adjusted_kelly, total_penalty) in
  (* Time decay penalty *)
  let '(adjusted_kelly, total_penalty) :=
    if (2160 <? time_to_resolution opportunity)%Z then
      let weeks_excess :=
        inject_Z (time_to_resolution opportunity - 2160) / 168 in
      let time_mult := float_pow (time_decay_factor self) weeks_excess in
      (adjusted_kelly * time_mult, total_penalty + (1 - time_mult))
    else (adjusted_kelly, total_penalty) in
  (adjusted_kelly, total_penalty).

Definition _apply_kelly_mode_scaling self (kelly : Q) : Q :=
  match kelly_mode self with
  | FULL => kelly
  | FRACTIONAL_50 => kelly * 0.5
  | FRACTIONAL_25 => kelly * 0.25
  | ADAPTIVE =>
      if 0.2 <? kelly then kelly * 0.25
      else if 0.1 <? kelly then kelly * 0.5
      else kelly * 0.75
  end.

(** [pos.get('position_size', 0)] *)
Definition position_size_of (pos : gmap string Q) : Q :=
  default 0 (pos !! "position_size"%string).

Definition _apply_portfolio_constraints self (kelly : Q) opportunity
    (existing_positions : option (list (gmap string Q))) (bankroll : Q) : Q :=
  let kelly := Py.min kelly (max_position_size self) in
  match existing_positions with
  | None | Some [] => kelly
  | Some positions =>
      let total_exposure := Py.sum (map position_size_of positions) in
      if max_correlation_exposure self <? total_exposure then
        let reduction_factor :=
          Py.max 0.5 (1 - (total_exposure - max_correlation_exposure self)) in
        kelly * reduction_factor
      else kelly
  end.

(** One entry of [stress_scenarios]. *)
Record scenario : Type := { prob_error : Q; spread_increase : Q }.

Definition stress_scenarios : list scenario :=
  [ {| prob_error := -0.2; spread_increase := 2.0 |};
    {| prob_error := -0.15; spread_increase := 1.5 |};
    {| prob_error := -0.1; spread_increase := 1.2 |} ].

(** The body of the loop over the scenarios. *)
Definition stress_step self opportunity (worst_case_kelly : Q) (sc : scenario) : Q :=
  let stressed_prob :=
    Py.max 0.01 (probability_estimate opportunity + prob_error sc) in
  let stressed_opp := {|
    probability_estimate := stressed_prob;
    market_price := market_price opportunity;
    confidence_level := confidence_level opportunity * 0.8;
    liquidity := liquidity opportunity * 0.7;
    bid_ask_spread := bid_ask_spread opportunity * spread_increase sc;
    time_to_resolution := time_to_resolution opportunity;
    market_id := market_id opportunity
  |} in
  let stressed_kelly := _calculate_base_kelly self stressed_opp in
  let stressed_kelly := stressed_kelly * 0.5 in
  Py.min worst_case_kelly stressed_kelly.

Definition _stress_test_position self (kelly : Q) opportunity : Q :=
  let worst_case_kelly := kelly in
  let worst_case_kelly :=
    fold_left (stress_step self opportunity) stress_scenarios worst_case_kelly in
  worst_case_kelly * 0.8.

Definition _generate_recommendation self (kelly expected_value : Q) opportunity
    : string :=
  if (kelly <? 0.01) || (expected_value <=? 0) then "HOLD"
  else if 0.05 <=? kelly then
    if market_price opportunity <? probability_estimate opportunity
    then "BUY_YES" else "BUY_NO"
  else "SMALL_BUY".

(** [" | ".join(parts)] *)
Fixpoint join (sep : string) (parts : list string) : string :=
  match parts with
  | [] => ""
  | [s] => s
  | s :: rest => s +:+ sep +:+ join sep rest
  end.

Definition _generate_reasoning self
    (base_kelly confidence_penalty risk_penalty final_kelly : Q) opportunity
    : string :=
  let reasoning_parts :=
    (["Base Kelly: " +:+ Fmt.fixed 3 base_kelly]
     ++ (if 0 <? confidence_penalty
         then ["Confidence adjustment: -" +:+ Fmt.percent 1 confidence_penalty]
         else [])
     ++ (if 0 <? risk_penalty
         then ["Risk adjustments: -" +:+ Fmt.percent 1 risk_penalty]
         else [])
     ++ ["Kelly mode: " +:+ KellyMode_value (kelly_mode self)]
     ++ ["Final position: " +:+ Fmt.percent 1 final_kelly]
     ++ (if final_kelly <? 0.01
         then ["Position too small - recommend HOLD"]
         else []))%list in
  join " | " reasoning_parts.

Definition calculate_optimal_position self opportunity (bankroll : Q)
    (existing_positions : option (list (gmap string Q))) : KellyResult :=
  if negb (_validate_opportunity self opportunity) then
    {| kelly_fraction := 0.0;
       adjusted_fraction := 0.0;
       expected_value := 0.0;
       confidence_adjustment := 0.0;
       risk_adjustment := 0.0;
       final_position_size := 0.0;
       recommendation := "HOLD";
       reasoning := "Invalid opportunity parameters" |}
  else
    let base_kelly := _calculate_base_kelly self opportunity in
    let expected_value' := _calculate_expected_value self opportunity in
    let '(confidence_adjusted_kelly, confidence_penalty) :=
      _apply_confidence_adjustment self base_kelly (confidence_level opportunity) in
    let '(risk_adjusted_kelly, risk_penalty) :=
      _apply_risk_adjustments self confidence_adjusted_kelly opportunity in
    let mode_adjusted_kelly := _apply_kelly_mode_scaling self risk_adjusted_kelly in
    let final_kelly :=
      _apply_portfolio_constraints self mode_adjusted_kelly opportunity
        existing_positions bankroll in
    let final_kelly :=
      if stress_test self then _stress_test_position self final_kelly opportunity
      else final_kelly in
    let recommendation' :=
      _generate_recommendation self final_kelly expected_value' opportunity in
    let reasoning' :=
      _generate_reasoning self base_kelly confidence_penalty risk_penalty
        final_kelly opportunity in
    {| kelly_fraction := base_kelly;
       adjusted_fraction := final_kelly;
       expected_value := expected_value';
       confidence_adjustment := confidence_penalty;
       risk_adjustment := risk_penalty;
       final_position_size := final_kelly;
       recommendation := recommendation';
       reasoning := reasoning' |}.

(** The [KellyResult] that the correlated path builds for one market. *)
Definition correlated_result self (adjusted_kelly : Q) (opp : MarketOpportunity)
    : KellyResult :=
  {| kelly_fraction := adjusted_kelly;
     adjusted_fraction := adjusted_kelly;
     expected_value := _calculate_expected_value self opp;
     confidence_adjustment := 0.0;
     risk_adjustment := 0.0;
     final_position_size := adjusted_kelly;
     recommendation :=
       _generate_recommendation self adjusted_kelly
         (_calculate_expected_value self opp) opp;
     reasoning := "Multi-market Kelly with correlation adjustment" |}.

(** The loop [for i, opp in enumerate(opportunities)] that fills [results]
    in the correlated path; [individual_kellys] is as long as
    [opportunities], so [individual_kellys[i]] is always in range. *)
Fixpoint create_results self (opportunities : list MarketOpportunity) (i : nat)
    (individual_kellys : list Q) (results : gmap string KellyResult)
    : gmap string KellyResult :=
  match opportunities with
  | [] => results
  | opp :: rest =>
      let adjusted_kelly := List.nth i individual_kellys 0 in
      create_results self rest (S i) individual_kellys
        (<[market_id opp := correlated_result self adjusted_kelly opp]> results)
  end.

(** The individually computed adjusted fractions. *)
Definition individual_fractions self (opportunities : list MarketOpportunity)
    (bankroll : Q) : list Q :=
  map (fun opp =>
         adjusted_fraction (calculate_optimal_position self opp bankroll None))
      opportunities.

(** "Scale down if total exceeds budget". *)
Definition scale_to_budget self (individual_kellys : list Q)
    : Py.outcome (list Q) :=
  let total_kelly_budget := max_correlation_exposure self in
  let total_kelly := Py.sum individual_kellys in
  if total_kelly_budget <? total_kelly then
    match Py.div total_kelly_budget total_kelly with
    | Py.Returned scale_factor =>
        Py.Returned (map (fun k => k * scale_factor) individual_kellys)
    | Py.Raised e => Py.Raised e
    end
  else Py.Returned individual_kellys.

Definition calculate_multi_market_kelly self
    (opportunities : list MarketOpportunity)
    (correlations : option (list (list Q))) (bankroll : Q)
    : Py.outcome (gmap string KellyResult) :=
  let results : gmap string KellyResult := ∅ in
  match correlations with
  | None =>
      Py.Returned
        (fold_left
           (fun results opp =>
              <[market_id opp :=
                  calculate_optimal_position self opp bankroll None]> results)
           opportunities results)
  | Some _ =>
      let individual_kellys := individual_fractions self opportunities bankroll in
      match scale_to_budget self individual_kellys with
      | Py.Returned individual_kellys =>
          Py.Returned
            (create_results self opportunities 0 individual_kellys results)
      | Py.Raised e => Py.Raised e
      end
  end.

End Engine.

(** The sum of the position sizes of a returned result dict. *)
Definition total_position_size (results : gmap string KellyResult) : Q :=
  map_fold (fun _ r acc => acc + final_position_size r) 0 results.

(** An executable instance of [**]: exact when the exponent is a whole
    number, which is all the concrete runs below need. *)
Definition pow_whole (x y : Q) : Q := Qpower x (Qfloor y).

(** The opportunity of [demo_kelly_optimizer]. *)
Definition demo_opportunity : MarketOpportunity := {|
  probability_estimate := 0.72;
  market_price := 0.35;
  confidence_level := 0.85;
  liquidity := 5000.0;
  bid_ask_spread := 0.02;
  time_to_resolution := 720;
  market_id := "btc_100k_2024"
|}.

(** ** Concrete engines, opportunities and predicates used below *)

(** A market priced at 0.99 with an estimate of 0.995. *)
Definition near_certain_opportunity : MarketOpportunity := {|
  probability_estimate := 0.995;
  market_price := 0.99;
  confidence_level := 0.85;
  liquidity := 5000.0;
  bid_ask_spread := 0.02;
  time_to_resolution := 720;
  market_id := "near_certain"
|}.

(** The zero-size HOLD result of the invalid-input path. *)
Definition invalid_result : KellyResult := {|
  kelly_fraction := 0.0;
  adjusted_fraction := 0.0;
  expected_value := 0.0;
  confidence_adjustment := 0.0;
  risk_adjustment := 0.0;
  final_position_size := 0.0;
  recommendation := "HOLD";
  reasoning := "Invalid opportunity parameters"
|}.

(** The four bounds that [_validate_opportunity] checks. *)
Definition within_validated_bounds (o : MarketOpportunity) : Prop :=
  (0 < probability_estimate o /\ probability_estimate o < 1)
  /\ (0 < market_price o /\ market_price o < 1)
  /\ (0 <= confidence_level o /\ confidence_level o <= 1)
  /\ 0 <= liquidity o.

(** An opportunity with a negative spread and a negative horizon, and every
    validated field as in the demo. *)
Definition unchecked_opportunity : MarketOpportunity := {|
  probability_estimate := 0.72;
  market_price := 0.35;
  confidence_level := 0.85;
  liquidity := 5000.0;
  bid_ask_spread := -0.01;
  time_to_resolution := -5;
  market_id := "btc_100k_2024"
|}.

(** An engine built with a negative hard cap. *)
Definition negative_cap_optimizer : AdvancedKellyOptimizer := {|
  kelly_mode := FRACTIONAL_50;
  max_position_size := -0.1;
  min_confidence_threshold := 0.6;
  max_correlation_exposure := 0.3;
  drawdown_protection := true;
  stress_test := true
|}.

(** The demo opportunity with confidence 0.55, below the 0.6 threshold. *)
Definition low_confidence_opportunity : MarketOpportunity := {|
  probability_estimate := 0.72;
  market_price := 0.35;
  confidence_level := 0.55;
  liquidity := 5000.0;
  bid_ask_spread := 0.02;
  time_to_resolution := 720;
  market_id := "btc_100k_2024"
|}.

(** An engine built with a negative correlation budget. *)
Definition negative_budget_optimizer : AdvancedKellyOptimizer := {|
  kelly_mode := FRACTIONAL_50;
  max_position_size := 0.15;
  min_confidence_threshold := 0.6;
  max_correlation_exposure := -0.1;
  drawdown_protection := true;
  stress_test := true
|}.

(** Three copies of the demo opportunity, all under one market id. *)
Definition repeated_market : list MarketOpportunity :=
  [demo_opportunity; demo_opportunity; demo_opportunity].

(** The demo opportunity under another market id. *)
Definition demo_as (id : string) : MarketOpportunity := {|
  probability_estimate := probability_estimate demo_opportunity;
  market_price := market_price demo_opportunity;
  confidence_level := confidence_level demo_opportunity;
  liquidity := liquidity demo_opportunity;
  bid_ask_spread := bid_ask_spread demo_opportunity;
  time_to_resolution := time_to_resolution demo_opportunity;
  market_id := id
|}.

(** Three markets with distinct ids. *)
Definition three_markets : list MarketOpportunity :=
  [demo_as "a"; demo_as "b"; demo_as "c"].

(** An illiquid market with a wide spread, resolving two weeks past the
    2160 hours after which time decay applies. *)
Definition long_dated_opportunity : MarketOpportunity := {|
  probability_estimate := 0.72;
  market_price := 0.35;
  confidence_level := 0.85;
  liquidity := 500;
  bid_ask_spread := 0.08;
  time_to_resolution := 2496;
  market_id := "long_dated"
|}.

(** The default engine in adaptive mode. *)
Definition adaptive_optimizer : AdvancedKellyOptimizer := {|
  kelly_mode := ADAPTIVE;
  max_position_size := 0.15;
  min_confidence_threshold := 0.6;
  max_correlation_exposure := 0.3;
  drawdown_protection := true;
  stress_test := true
|}.

(** Names for three intermediate values of [calculate_optimal_position] on
    a valid opportunity: the factor [time_decay_factor ** weeks_excess] of
    the time-decay penalty, [mode_adjusted_kelly], and the [final_kelly]
    that comes out of the portfolio constraint, before the stress test. *)
Definition time_mult (float_pow : Q -> Q -> Q) (self : AdvancedKellyOptimizer)
    (o : MarketOpportunity) : Q :=
  float_pow (time_decay_factor self)
    (inject_Z (time_to_resolution o - 2160) / 168).

Definition mode_adjusted_kelly (float_pow : Q -> Q -> Q)
    (self : AdvancedKellyOptimizer) (o : MarketOpportunity) : Q :=
  _apply_kelly_mode_scaling self
    (fst (_apply_risk_adjustments float_pow self
            (fst (_apply_confidence_adjustment self
                    (_calculate_base_kelly self o) (confidence_level o)))
            o)).

Definition pre_stress_kelly (float_pow : Q -> Q -> Q)
    (self : AdvancedKellyOptimizer) (o : MarketOpportunity) (bankroll : Q)
    (existing_positions : option (list (gmap string Q))) : Q :=
  _apply_portfolio_constraints self (mode_adjusted_kelly float_pow self o) o
    existing_positions bankroll.

(** Filling a result dict from a list of opportunities, one entry per
    opportunity in list order, later entries replacing earlier ones with the
    same market id: the shape of both result loops of
    [calculate_multi_market_kelly]. *)
Definition insert_all (f : MarketOpportunity -> KellyResult)
    (opps : list MarketOpportunity) (m : gmap string KellyResult)
    : gmap string KellyResult :=
  fold_left (fun results opp => <[market_id opp := f opp]> results) opps m.

(** The fraction that the correlated path reports for an opportunity: its
    individual adjusted fraction, times budget/sum when the sum of all
    individual fractions exceeds the budget. *)
Definition budget_scaled_fraction (float_pow : Q -> Q -> Q)
    (self : AdvancedKellyOptimizer) (opps : list MarketOpportunity)
    (bankroll : Q) (o : MarketOpportunity) : Q :=
  let k := adjusted_fraction
             (calculate_optimal_position float_pow self o bankroll None) in
  let total := Py.sum (individual_fractions float_pow self opps bankroll) in
  if max_correlation_exposure self <? total
  then k * (max_correlation_exposure self / total)
  else k.


(** The smallest positive normal binary64 number.  For a price from here up
    [1 / price] is finite in binary64; below it (the subnormal prices) the
    quotient can overflow to infinity. *)
Definition min_normal : Q := Qpower 2 (-1022).

(** The opportunity is one the float code evaluates inside the finite
    floats: its price, when positive, is at least [min_normal], so that
    [1 / price] is finite, and its hours to resolution are below 2^1024, so
    that the week count [(t - 2160) / 168] fits a float and the division
    does not raise OverflowError. *)
Definition within_float_range (o : MarketOpportunity) : Prop :=
  (0 < market_price o -> min_normal <= market_price o)
  /\ (time_to_resolution o < 2 ^ 1024)%Z.

(** ** A binary64 replica of the engine

    The same methods over IEEE 754 binary64 numbers (the kernel's primitive
    floats, which are Python's [float]), for running the code on concrete
    inputs where the floats leave the rationals: overflow to infinity, NaN
    and rounding.  Three operations that are not float primitives are
    parameters: [x ** y], the true division of two ints (which raises
    OverflowError when the quotient is too large for a float), and [sum]
    over floats, which CPython computes by plain left-to-right addition up
    to version 3.11 ([sum_left]) and with a compensation term from 3.12 on
    ([sum_compensated]). *)

Module B64.

Local Open Scope float_scope.

(** [max(a, b)] and [min(a, b)]: the first argument unless the second
    compares strictly greater (smaller); a comparison with NaN is false. *)
Definition max (a b : float) : float := if a <? b then b else a.
Definition min (a b : float) : float := if b <? a then b else a.

Inductive exn : Set := OverflowError | ZeroDivisionError.

Inductive outcome (A : Type) : Type :=
| Returned (a : A)
| Raised (e : exn).
Arguments Returned {A} a.
Arguments Raised {A} e.

(** [a / b] where the source has not checked the divisor: a zero of either
    sign raises. *)
Definition div (a b : float) : outcome float :=
  if b =? 0 then Raised ZeroDivisionError else Returned (a / b).

(** [sum(xs)] by left-to-right addition from 0 (CPython up to 3.11). *)
Definition sum_left (xs : list float) : float := fold_left PrimFloat.add xs 0.

(** [sum(xs)] with Neumaier's compensation (CPython from 3.12): the running
    sum and the accumulated rounding error, added at the end when it is
    finite and not zero. *)
Definition compensated_step (acc : float * float) (x : float) : float * float :=
  let '(f_result, c) := acc in
  let t := f_result + x in
  let c :=
    if PrimFloat.abs x <=? PrimFloat.abs f_result
    then c + ((f_result - t) + x)
    else c + ((x - t) + f_result) in
  (t, c).

Definition sum_compensated (xs : list float) : float :=
  let '(f_result, c) := fold_left compensated_step xs (0, 0) in
  if negb (c =? 0) && PrimFloat.is_finite c then f_result + c else f_result.

(** The exact value of a finite float. *)
Definition to_Q (x : float) : option Q :=
  match Prim2SF x with
  | S754_zero _ => Some 0%Q
  | S754_finite s m e =>
      let mag := (inject_Z (Z.pos m) * Qpower 2 e)%Q in
      Some (if s then Qopp mag else mag)
  | S754_infinity _ | S754_nan => None
  end.

(** [format(x, ".<d>f")]: the exact value rounded half to even, with the
    sign of the float (so a negative zero prints its sign); NaN and the
    infinities print by name. *)
Definition fixed (d : nat) (x : float) : string :=
  match Prim2SF x with
  | S754_nan => "nan"
  | S754_infinity s => if s then "-inf" else "inf"
  | S754_zero s => (if s then "-" else "") +:+ Fmt.fixed d 0%Q
  | S754_finite _ _ _ =>
      match to_Q x with
      | Some q => Fmt.fixed d q
      | None => "nan"
      end
  end.

(** [format(x, ".<d>%")]: the float product [x * 100], then as above. *)
Definition percent (d : nat) (x : float) : string :=
  fixed d (x * 100) +:+ "%".

Record MarketOpportunity : Type := {
  probability_estimate : float;
  market_price : float;
  confidence_level : float;
  liquidity : float;
  bid_ask_spread : float;
  time_to_resolution : Z;
  market_id : string
}.

Record KellyResult : Type := {
  kelly_fraction : float;
  adjusted_fraction : float;
  expected_value : float;
  confidence_adjustment : float;
  risk_adjustment : float;
  final_position_size : float;
  recommendation : string;
  reasoning : string
}.

Record AdvancedKellyOptimizer : Type := {
  kelly_mode : KellyMode;
  max_position_size : float;
  min_confidence_threshold : float;
  max_correlation_exposure : float;
  drawdown_protection : bool;
  stress_test : bool
}.

Definition default_optimizer : AdvancedKellyOptimizer := {|
  kelly_mode := FRACTIONAL_50;
  max_position_size := 0.15;
  min_confidence_threshold := 0.6;
  max_correlation_exposure := 0.3;
  drawdown_protection := true;
  stress_test := true
|}.

Definition liquidity_penalty (self : AdvancedKellyOptimizer) : float := 0.9.
Definition time_decay_factor (self : AdvancedKellyOptimizer) : float := 0.95.

Definition confidence_curve (self : AdvancedKellyOptimizer)
    : list (float * float) :=
  [ (0.5, 0.0); (0.6, 0.2); (0.7, 0.5); (0.8, 0.8); (0.9, 0.95); (1.0, 1.0) ].

Section Engine.

Variable float_pow : float -> float -> float.
Variable int_true_div : Z -> Z -> outcome float.
Variable float_sum : list float -> float.

Implicit Types (self : AdvancedKellyOptimizer) (opportunity : MarketOpportunity).

Definition _validate_opportunity self opportunity : bool :=
  if negb ((0 <? probability_estimate opportunity)
           && (probability_estimate opportunity <? 1)) then false
  else if negb ((0 <? market_price opportunity)
                && (market_price opportunity <? 1)) then false
  else if negb ((0 <=? confidence_level opportunity)
                && (confidence_level opportunity <=? 1)) then false
  else if liquidity opportunity <? 0 then false
  else true.

Definition _calculate_base_kelly self opportunity : float :=
  let p := probability_estimate opportunity in
  let price := market_price opportunity in
  if (price <=? 0) || (1 <=? price) then 0.0
  else
    let odds := (1 / price) - 1 in
    let q := 1 - p in
    if odds <=? 0 then 0.0
    else
      let kelly := (p * odds - q) / odds in
      max kelly 0.0.

Definition _calculate_expected_value self opportunity : float :=
  let p := probability_estimate opportunity in
  let price := market_price opportunity in
  if (price <=? 0) || (1 <=? price) then 0.0
  else p / price - 1.

Fixpoint insert_sorted (x : float) (xs : list float) : list float :=
  match xs with
  | [] => [x]
  | y :: ys => if x <=? y then x :: xs else y :: insert_sorted x ys
  end.

Definition sorted (xs : list float) : list float := foldr insert_sorted [] xs.

Definition curve_get (curve : list (float * float)) (k : float) : float :=
  match List.find (fun kv => fst kv =? k) curve with
  | Some kv => snd kv
  | None => 0.0
  end.

Fixpoint interpolate (curve : list (float * float)) (confidence : float)
    (confidence_levels : list float) : float :=
  match confidence_levels with
  | x1 :: ((x2 :: _) as rest) =>
      if (x1 <=? confidence) && (confidence <=? x2) then
        let y1 := curve_get curve x1 in
        let y2 := curve_get curve x2 in
        y1 + (y2 - y1) * (confidence - x1) / (x2 - x1)
      else interpolate curve confidence rest
  | _ => 0.0
  end.

Definition _get_confidence_multiplier self (confidence : float) : float :=
  let curve := confidence_curve self in
  let confidence_levels := sorted (map fst curve) in
  let first := List.hd 0.0 confidence_levels in
  let last := List.last confidence_levels 0.0 in
  if confidence <=? first then curve_get curve first
  else if last <=? confidence then curve_get curve last
  else interpolate curve confidence confidence_levels.

Definition _apply_confidence_adjustment self (kelly confidence : float)
    : float * float :=
  if confidence <? min_confidence_threshold self then (0.0, 1.0)
  else
    let confidence_multiplier := _get_confidence_multiplier self confidence in
    let adjusted_kelly := kelly * confidence_multiplier in
    let penalty := 1 - confidence_multiplier in
    (adjusted_kelly, penalty).

Definition _apply_risk_adjustments self (kelly : float) opportunity
    : outcome (float * float) :=
  let total_penalty := 0.0 in
  let adjusted_kelly := kelly in
  let '(adjusted_kelly, total_penalty) :=
    if liquidity opportunity <? 1000 then
      let liquidity_mult := liquidity_penalty self in
      (adjusted_kelly * liquidity_mult, total_penalty + (1 - liquidity_mult))
    else (adjusted_kelly, total_penalty) in
  let '(adjusted_kelly, total_penalty) :=
    if 0.05 <? bid_ask_spread opportunity then
      let spread_mult := 1 - (bid_ask_spread opportunity * 2) in
      let spread_mult := max spread_mult 0.5 in
      (adjusted_kelly * spread_mult, total_penalty + (1 - spread_mult))
    else (adjusted_kelly, total_penalty) in
  if (2160 <? time_to_resolution opportunity)%Z then
    match int_true_div (time_to_resolution opportunity - 2160) 168 with
    | Returned weeks_excess =>
        let time_mult := float_pow (time_decay_factor self) weeks_excess in
        Returned (adjusted_kelly * time_mult, total_penalty + (1 - time_mult))
    | Raised e => Raised e
    end
  else Returned (adjusted_kelly, total_penalty).

Definition _apply_kelly_mode_scaling self (kelly : float) : float :=
  match kelly_mode self with
  | FULL => kelly
  | FRACTIONAL_50 => kelly * 0.5
  | FRACTIONAL_25 => kelly * 0.25
  | ADAPTIVE =>
      if 0.2 <? kelly then kelly * 0.25
      else if 0.1 <? kelly then kelly * 0.5
      else kelly * 0.75
  end.

Definition position_size_of (pos : gmap string float) : float :=
  default 0.0 (pos !! "position_size"%string).

Definition _apply_portfolio_constraints self (kelly : float) opportunity
    (existing_positions : option (list (gmap string float))) (bankroll : float)
    : float :=
  let kelly := min kelly (max_position_size self) in
  match existing_positions with
  | None | Some [] => kelly
  | Some positions =>
      let total_exposure := float_sum (map position_size_of positions) in
      if max_correlation_exposure self <? total_exposure then
        let reduction_factor :=
          max 0.5 (1 - (total_exposure - max_correlation_exposure self)) in
        kelly * reduction_factor
      else kelly
  end.

Record scenario : Type := { prob_error : float; spread_increase : float }.

Definition stress_scenarios : list scenario :=
  [ {| prob_error := -0.2; spread_increase := 2.0 |};
    {| prob_error := -0.15; spread_increase := 1.5 |};
    {| prob_error := -0.1; spread_increase := 1.2 |} ].

Definition stress_step self opportunity (worst_case_kelly : float)
    (sc : scenario) : float :=
  let stressed_prob :=
    max 0.01 (probability_estimate opportunity + prob_error sc) in
  let stressed_opp := {|
    probability_estimate := stressed_prob;
    market_price := market_price opportunity;
    confidence_level := confidence_level opportunity * 0.8;
    liquidity := liquidity opportunity * 0.7;
    bid_ask_spread := bid_ask_spread opportunity * spread_increase sc;
    time_to_resolution := time_to_resolution opportunity;
    market_id := market_id opportunity
  |} in
  let stressed_kelly := _calculate_base_kelly self stressed_opp in
  let stressed_kelly := stressed_kelly * 0.5 in
  min worst_case_kelly stressed_kelly.

Definition _stress_test_position self (kelly : float) opportunity : float :=
  let worst_case_kelly := kelly in
  let worst_case_kelly :=
    fold_left (stress_step self opportunity) stress_scenarios worst_case_kelly in
  worst_case_kelly * 0.8.

Definition _generate_recommendation self (kelly expected_value : float)
    opportunity : string :=
  if (kelly <? 0.01) || (expected_value <=? 0) then "HOLD"
  else if 0.05 <=? kelly then
    if market_price opportunity <? probability_estimate opportunity
    then "BUY_YES" else "BUY_NO"
  else "SMALL_BUY".

Definition _generate_reasoning self
    (base_kelly confidence_penalty risk_penalty final_kelly : float) opportunity
    : string :=
  let reasoning_parts :=
    (["Base Kelly: " +:+ fixed 3 base_kelly]
     ++ (if 0 <? confidence_penalty
         then ["Confidence adjustment: -" +:+ percent 1 confidence_penalty]
         else [])
     ++ (if 0 <? risk_penalty
         then ["Risk adjustments: -" +:+ percent 1 risk_penalty]
         else [])
     ++ ["Kelly mode: " +:+ KellyMode_value (kelly_mode self)]
     ++ ["Final position: " +:+ percent 1 final_kelly]
     ++ (if final_kelly <? 0.01
         then ["Position too small - recommend HOLD"]
         else []))%list in
  join " | " reasoning_parts.

Definition calculate_optimal_position self opportunity (bankroll : float)
    (existing_positions : option (list (gmap string float)))
    : outcome KellyResult :=
  if negb (_validate_opportunity self opportunity) then
    Returned
      {| kelly_fraction := 0.0;
         adjusted_fraction := 0.0;
         expected_value := 0.0;
         confidence_adjustment := 0.0;
         risk_adjustment := 0.0;
         final_position_size := 0.0;
         recommendation := "HOLD";
         reasoning := "Invalid opportunity parameters" |}
  else
    let base_kelly := _calculate_base_kelly self opportunity in
    let expected_value' := _calculate_expected_value self opportunity in
    let '(confidence_adjusted_kelly, confidence_penalty) :=
      _apply_confidence_adjustment self base_kelly (confidence_level opportunity) in
    match _apply_risk_adjustments self confidence_adjusted_kelly opportunity with
    | Raised e => Raised e
    | Returned (risk_adjusted_kelly, risk_penalty) =>
        let mode_adjusted_kelly :=
          _apply_kelly_mode_scaling self risk_adjusted_kelly in
        let final_kelly :=
          _apply_portfolio_constraints self mode_adjusted_kelly opportunity
            existing_positions bankroll in
        let final_kelly :=
          if stress_test self
          then _stress_test_position self final_kelly opportunity
          else final_kelly in
        let recommendation' :=
          _generate_recommendation self final_kelly expected_value' opportunity in
        let reasoning' :=
          _generate_reasoning self base_kelly confidence_penalty risk_penalty
            final_kelly opportunity in
        Returned
          {| kelly_fraction := base_kelly;
             adjusted_fraction := final_kelly;
             expected_value := expected_value';
             confidence_adjustment := confidence_penalty;
             risk_adjustment := risk_penalty;
             final_position_size := final_kelly;
             recommendation := recommendation';
             reasoning := reasoning' |}
    end.

Definition correlated_result self (adjusted_kelly : float)
    (opp : MarketOpportunity) : KellyResult :=
  {| kelly_fraction := adjusted_kelly;
     adjusted_fraction := adjusted_kelly;
     expected_value := _calculate_expected_value self opp;
     confidence_adjustment := 0.0;
     risk_adjustment := 0.0;
     final_position_size := adjusted_kelly;
     recommendation :=
       _generate_recommendation self adjusted_kelly
         (_calculate_expected_value self opp) opp;
     reasoning := "Multi-market Kelly with correlation adjustment" |}.

Fixpoint create_results self (opportunities : list MarketOpportunity) (i : nat)
    (individual_kellys : list float) (results : gmap string KellyResult)
    : gmap string KellyResult :=
  match opportunities with
  | [] => results
  | opp :: rest =>
      let adjusted_kelly := List.nth i individual_kellys 0 in
      create_results self rest (S i) individual_kellys
        (<[market_id opp := correlated_result self adjusted_kelly opp]> results)
  end.

(** The loop that collects the individual adjusted fractions; the first
    evaluation that raises ends it. *)
Fixpoint individual_fractions self (opportunities : list MarketOpportunity)
    (bankroll : float) : outcome (list float) :=
  match opportunities with
  | [] => Returned []
  | opp :: rest =>
      match calculate_optimal_position self opp bankroll None with
      | Raised e => Raised e
      | Returned kelly_result =>
          match individual_fractions self rest bankroll with
          | Raised e => Raised e
          | Returned ks => Returned (adjusted_fraction kelly_result :: ks)
          end
      end
  end.

Definition scale_to_budget self (individual_kellys : list float)
    : outcome (list float) :=
  let total_kelly_budget := max_correlation_exposure self in
  let total_kelly := float_sum individual_kellys in
  if total_kelly_budget <? total_kelly then
    match div total_kelly_budget total_kelly with
    | Returned scale_factor =>
        Returned (map (fun k => k * scale_factor) individual_kellys)
    | Raised e => Raised e
    end
  else Returned individual_kellys.

(** The independent path: one evaluation per opportunity, stored under its
    market id. *)
Fixpoint independent_results self (opportunities : list MarketOpportunity)
    (bankroll : float) (results : gmap string KellyResult)
    : outcome (gmap string KellyResult) :=
  match opportunities with
  | [] => Returned results
  | opp :: rest =>
      match calculate_optimal_position self opp bankroll None with
      | Raised e => Raised e
      | Returned r =>
          independent_results self rest bankroll (<[market_id opp := r]> results)
      end
  end.

Definition calculate_multi_market_kelly self
    (opportunities : list MarketOpportunity)
    (correlations : option (list (list float))) (bankroll : float)
    : outcome (gmap string KellyResult) :=
  let results : gmap string KellyResult := ∅ in
  match correlations with
  | None => independent_results self opportunities bankroll results
  | Some _ =>
      match individual_fractions self opportunities bankroll with
      | Raised e => Raised e
      | Returned individual_kellys =>
          match scale_to_budget self individual_kellys with
          | Returned individual_kellys =>
              Returned
                (create_results self opportunities 0 individual_kellys results)
          | Raised e => Raised e
          end
      end
  end.

End Engine.

(** The opportunity of [demo_kelly_optimizer]. *)
Definition demo_opportunity : MarketOpportunity := {|
  probability_estimate := 0.72;
  market_price := 0.35;
  confidence_level := 0.85;
  liquidity := 5000.0;
  bid_ask_spread := 0.02;
  time_to_resolution := 720;
  market_id := "btc_100k_2024"
|}.

(** The demo opportunity at a price of 1e-320: a positive (subnormal) float
    below 1, so it passes validation, but [1 / price] is infinite. *)
Definition tiny_price_opportunity : MarketOpportunity := {|
  probability_estimate := 0.72;
  market_price := 1e-320;
  confidence_level := 0.85;
  liquidity := 5000.0;
  bid_ask_spread := 0.02;
  time_to_resolution := 720;
  market_id := "btc_100k_2024"
|}.

(** The demo opportunity under another market id. *)
Definition demo_as (id : string) : MarketOpportunity := {|
  probability_estimate := probability_estimate demo_opportunity;
  market_price := market_price demo_opportunity;
  confidence_level := confidence_level demo_opportunity;
  liquidity := liquidity demo_opportunity;
  bid_ask_spread := bid_ask_spread demo_opportunity;
  time_to_resolution := time_to_resolution demo_opportunity;
  market_id := id
|}.

(** Three markets with distinct ids. *)
Definition three_markets : list MarketOpportunity :=
  [demo_as "a"; demo_as "b"; demo_as "c"].

(** The exact sum of the final position sizes of the results under the
    given ids, when all are there and finite. *)
Fixpoint exact_total (results : gmap string KellyResult) (ids : list string)
    : option Q :=
  match ids with
  | [] => Some 0%Q
  | id :: rest =>
      match results !! id, exact_total results rest with
      | Some r, Some t =>
          match to_Q (final_position_size r) with
          | Some q => Some (q + t)%Q
          | None => None
          end
      | _, _ => None
      end
  end.

End B64.

(** * Properties *)

(** ** Comparisons as propositions *)

Lemma ltb_true (a b : Q) : (a <? b) = true <-> a < b.
Proof.
  unfold Py.ltb. rewrite negb_true_iff, <- not_true_iff_false, Qle_bool_iff.
  split; [apply Qnot_le_lt | apply Qlt_not_le].
Qed.

Lemma ltb_false (a b : Q) : (a <? b) = false <-> b <= a.
Proof. unfold Py.ltb. rewrite negb_false_iff. apply Qle_bool_iff. Qed.

Lemma leb_true (a b : Q) : (a <=? b) = true <-> a <= b.
Proof. apply Qle_bool_iff. Qed.

Lemma leb_false (a b : Q) : (a <=? b) = false <-> b < a.
Proof.
  unfold Py.leb. rewrite <- not_true_iff_false, Qle_bool_iff.
  split; [apply Qnot_le_lt | apply Qlt_not_le].
Qed.

(** Split on every float comparison that the goal branches on. *)
Ltac cmp_cases :=
  repeat match goal with
  | |- context [Py.ltb ?a ?b] =>
      let E := fresh "E" in
      destruct (Py.ltb a b) eqn:E;
      [apply ltb_true in E | apply ltb_false in E]
  | |- context [Py.leb ?a ?b] =>
      let E := fresh "E" in
      destruct (Py.leb a b) eqn:E;
      [apply leb_true in E | apply leb_false in E]
  end.

Lemma py_max_spec (a b : Q) : a <= Py.max a b /\ b <= Py.max a b
  /\ (Py.max a b = a \/ Py.max a b = b).
Proof. unfold Py.max. cmp_cases; repeat split; auto; lra. Qed.

Lemma py_min_spec (a b : Q) : Py.min a b <= a /\ Py.min a b <= b
  /\ (Py.min a b = a \/ Py.min a b = b).
Proof. unfold Py.min. cmp_cases; repeat split; auto; lra. Qed.

(** ** Runs of the model *)

(** [demo_kelly_optimizer]: the default engine on the demo opportunity. *)
Example demo_run :
  let r := calculate_optimal_position pow_whole default_optimizer
             demo_opportunity 1000.0 None in
  kelly_fraction r == 37 # 65
  /\ expected_value r == 37 # 35
  /\ confidence_adjustment r == 0.125
  /\ risk_adjustment r == 0
  /\ final_position_size r == 34 # 325
  /\ recommendation r = "BUY_YES"
  /\ reasoning r = "Base Kelly: 0.569 | Confidence adjustment: -12.5% | Kelly mode: half | Final position: 10.5%".
Proof. repeat split; vm_compute; reflexivity. Qed.

(** The same run on the binary64 replica. *)
Example binary64_demo_run (float_pow : float -> float -> float)
    (int_true_div : Z -> Z -> B64.outcome float)
    (float_sum : list float -> float) :
  exists r,
    B64.calculate_optimal_position float_pow int_true_div float_sum
      B64.default_optimizer B64.demo_opportunity 1000 None = B64.Returned r
    /\ B64.kelly_fraction r = 0.56923076923076921%float
    /\ B64.final_position_size r = 0.10461538461538462%float
    /\ B64.recommendation r = "BUY_YES"
    /\ B64.reasoning r = "Base Kelly: 0.569 | Confidence adjustment: -12.5% | Kelly mode: half | Final position: 10.5%".
Proof. eexists. vm_compute. repeat split. Qed.

(** All three risk penalties at once: liquidity 500, spread 0.08 and a
    horizon two weeks past the 2160 hours, on a fraction of 1. *)
Example risk_adjustments_run :
  let o := {| probability_estimate := 0.72; market_price := 0.35;
              confidence_level := 0.85; liquidity := 500;
              bid_ask_spread := 0.08; time_to_resolution := 2496;
              market_id := "btc_100k_2024" |} in
  let '(k, penalty) := _apply_risk_adjustments pow_whole default_optimizer 1 o in
  k == 0.9 * 0.84 * (0.95 * 0.95)
  /\ penalty == 0.1 + 0.16 + (1 - 0.95 * 0.95).
Proof. split; vm_compute; reflexivity. Qed.

(** ** The base Kelly fraction *)

Lemma odds_positive (price : Q) : 0 < price -> price < 1 -> 0 < 1 / price - 1.
Proof.
  intros H0 H1.
  assert (Hp : ~ price == 0) by lra.
  assert (E : 1 / price - 1 == (1 - price) / price) by (field; exact Hp).
  rewrite E. apply Qlt_shift_div_l; lra.
Qed.

Lemma base_kelly_nonneg self opportunity :
  0 <= _calculate_base_kelly self opportunity.
Proof.
  unfold _calculate_base_kelly.
  destruct (_ || _); [lra |].
  cmp_cases; [lra |].
  destruct (py_max_spec
    ((probability_estimate opportunity * (1 / market_price opportunity - 1)
      - (1 - probability_estimate opportunity))
     / (1 / market_price opportunity - 1)) 0.0) as (_ & H & _).
  lra.
Qed.

(** C4, on the binary64 code.  At a price the validation accepts the base
    Kelly fraction is not [>= 0]: for the subnormal price 1e-320 the
    quotient [1 / price] overflows to infinity, so the odds are infinite,
    [(p * odds - q) / odds] is infinity / infinity, a NaN, and
    [max(kelly, 0.0)] returns its first argument because [0.0 > NaN] is
    false. *)
Theorem binary64_base_kelly_at_tiny_price :
  let o := B64.tiny_price_opportunity in
  (PrimFloat.ltb 0 (B64.market_price o)
   && PrimFloat.ltb (B64.market_price o) 1) = true
  /\ PrimFloat.is_nan (B64._calculate_base_kelly B64.default_optimizer o) = true
  /\ PrimFloat.leb 0 (B64._calculate_base_kelly B64.default_optimizer o)
     = false.
Proof. vm_compute. repeat split. Qed.

(** X29. Outside (0,1) the base Kelly fraction is 0.  For an estimate
    strictly inside (0,1) and a price inside (0,1) that is not below the
    smallest normal float, it lies in [0,1]. *)
Theorem base_kelly_range self (o : MarketOpportunity) :
  (market_price o <= 0 \/ 1 <= market_price o ->
   _calculate_base_kelly self o == 0)
  /\ (0 < probability_estimate o /\ probability_estimate o < 1 ->
      min_normal <= market_price o /\ market_price o < 1 ->
      0 <= _calculate_base_kelly self o /\ _calculate_base_kelly self o <= 1).
Proof.
  split.
  - intros H. unfold _calculate_base_kelly.
    destruct (_ || _) eqn:G; [reflexivity |].
    apply orb_false_iff in G as [G1 G2].
    apply leb_false in G1. apply leb_false in G2. lra.
  - intros (Hp0 & Hp1) (Hlo & Hhi).
    assert (Hm0 : 0 < market_price o)
      by (apply Qlt_le_trans with min_normal; [reflexivity | exact Hlo]).
    pose proof (base_kelly_nonneg self o) as Hnn.
    split; [exact Hnn |].
    unfold _calculate_base_kelly in *.
    destruct (_ || _) eqn:G; [lra |].
    pose proof (odds_positive _ Hm0 Hhi) as Hodds.
    destruct (1 / market_price o - 1 <=? 0) eqn:E; [lra |].
    cbv zeta in *.
    set (odds := 1 / market_price o - 1) in *.
    assert (Hk : (probability_estimate o * odds - (1 - probability_estimate o))
                 / odds <= 1).
    { apply Qle_shift_div_r; [exact Hodds |]. nra. }
    unfold Py.max. cmp_cases; lra.
Qed.

Lemma base_kelly_range_witness :
  min_normal <= market_price demo_opportunity
  /\ 0 <= _calculate_base_kelly default_optimizer demo_opportunity
  /\ _calculate_base_kelly default_optimizer demo_opportunity <= 1.
Proof.
  assert (Hlo : min_normal <= market_price demo_opportunity)
    by (vm_compute; discriminate).
  split; [exact Hlo |].
  apply (base_kelly_range default_optimizer demo_opportunity).
  - simpl. split; lra.
  - split; [exact Hlo | simpl; lra].
Defined.

(** C6, as stated, fails: at price 0.99 the code has no guard, and an
    estimate of 0.995 (inside (0,1)) gets the base Kelly fraction 1/2. *)
Lemma base_kelly_at_price_099_counterexample :
  0 < probability_estimate near_certain_opportunity
  /\ probability_estimate near_certain_opportunity < 1
  /\ market_price near_certain_opportunity == 0.99
  /\ _calculate_base_kelly default_optimizer near_certain_opportunity == 1 # 2.
Proof. repeat split; vm_compute; reflexivity. Qed.

(** C6, amended.  At market price 0.99 (any price within 1e-9 of it, which
    covers the float nearest to 0.99) the base Kelly fraction is 0 for
    every probability estimate up to 0.989, and at least 0.09 for every
    estimate from 0.991 up: the price alone does not make it 0. *)
Theorem base_kelly_near_price_099 self opportunity :
  0.989999999 <= market_price opportunity ->
  market_price opportunity <= 0.990000001 ->
  (probability_estimate opportunity <= 0.989 ->
   _calculate_base_kelly self opportunity == 0)
  /\ (0.991 <= probability_estimate opportunity ->
      0.09 <= _calculate_base_kelly self opportunity).
Proof.
  intros Hlo Hhi.
  assert (H0 : 0 < market_price opportunity) by lra.
  assert (H1 : market_price opportunity < 1) by lra.
  pose proof (odds_positive _ H0 H1) as Hodds.
  unfold _calculate_base_kelly.
  destruct (_ || _) eqn:G.
  { apply orb_true_iff in G as [G | G]; apply leb_true in G; lra. }
  destruct (1 / market_price opportunity - 1 <=? 0) eqn:E;
    [apply leb_true in E; lra |].
  cbv zeta.
  set (p := probability_estimate opportunity) in *.
  set (price := market_price opportunity) in *.
  assert (Hk : (p * (1 / price - 1) - (1 - p)) / (1 / price - 1)
               == (p - price) / (1 - price)) by (field; split; lra).
  assert (Hc : (p - price) / (1 - price) * (1 - price) == p - price)
    by (field; lra).
  set (k := (p * (1 / price - 1) - (1 - p)) / (1 / price - 1)) in *.
  set (c := (p - price) / (1 - price)) in *.
  unfold Py.max. split; intros Hp; cmp_cases; nra.
Qed.

Lemma base_kelly_near_price_099_witness :
  0.989999999 <= market_price near_certain_opportunity
  /\ 0.09 <= _calculate_base_kelly default_optimizer near_certain_opportunity.
Proof.
  split; [simpl; lra |].
  apply (base_kelly_near_price_099 default_optimizer near_certain_opportunity);
    simpl; lra.
Defined.

(** ** The recommendation *)

(** C5. HOLD if the fraction is below 0.01 or the expected value is not
    positive; otherwise BUY_YES when the fraction is at least 0.05 and the
    estimate exceeds the price, BUY_NO when it is at least 0.05 and the
    estimate does not, and SMALL_BUY below 0.05. *)
Theorem recommendation_rule self (f ev : Q) opportunity :
  let r := _generate_recommendation self f ev opportunity in
  let p := probability_estimate opportunity in
  let price := market_price opportunity in
  (f < 0.01 \/ ev <= 0 -> r = "HOLD")
  /\ (0.01 <= f /\ 0 < ev /\ 0.05 <= f /\ price < p -> r = "BUY_YES")
  /\ (0.01 <= f /\ 0 < ev /\ 0.05 <= f /\ p <= price -> r = "BUY_NO")
  /\ (0.01 <= f /\ 0 < ev /\ f < 0.05 -> r = "SMALL_BUY").
Proof.
  cbv zeta. unfold _generate_recommendation.
  repeat split; intros H; cmp_cases; simpl; try reflexivity; lra.
Qed.

(** Each of the four recommendations is reached. *)
Lemma recommendation_rule_witness :
  _generate_recommendation default_optimizer 0.005 1 demo_opportunity = "HOLD"
  /\ _generate_recommendation default_optimizer 0.1 1 demo_opportunity = "BUY_YES"
  /\ _generate_recommendation default_optimizer 0.1 1
       {| probability_estimate := 0.3; market_price := 0.35;
          confidence_level := 0.85; liquidity := 5000.0;
          bid_ask_spread := 0.02; time_to_resolution := 720;
          market_id := "btc_100k_2024" |} = "BUY_NO"
  /\ _generate_recommendation default_optimizer 0.02 1 demo_opportunity
     = "SMALL_BUY".
Proof.
  split; [| split; [| split]].
  - apply (recommendation_rule default_optimizer 0.005 1 demo_opportunity).
    left. lra.
  - apply (recommendation_rule default_optimizer 0.1 1 demo_opportunity).
    simpl. lra.
  - match goal with
    | |- _generate_recommendation _ _ _ ?o = _ =>
        apply (recommendation_rule default_optimizer 0.1 1 o)
    end.
    simpl. lra.
  - apply (recommendation_rule default_optimizer 0.02 1 demo_opportunity).
    lra.
Defined.

(** ** The stress test *)

Section StressTest.

Variables (self : AdvancedKellyOptimizer) (opportunity : MarketOpportunity).

Lemma stress_step_le (w : Q) (sc : scenario) :
  stress_step self opportunity w sc <= w.
Proof. unfold stress_step. apply py_min_spec. Qed.

Lemma stress_step_nonneg (w : Q) (sc : scenario) :
  0 <= w -> 0 <= stress_step self opportunity w sc.
Proof.
  intros Hw. unfold stress_step.
  match goal with
  | |- 0 <= Py.min w (_calculate_base_kelly ?s ?o * 0.5) =>
      pose proof (base_kelly_nonneg s o) as Hb;
      destruct (py_min_spec w (_calculate_base_kelly s o * 0.5))
        as (_ & _ & [-> | ->])
  end; lra.
Qed.

(** The loop only ever lowers the running worst case... *)
Lemma stress_loop_le (scs : list scenario) (w : Q) :
  fold_left (stress_step self opportunity) scs w <= w.
Proof.
  revert w. induction scs as [| sc scs IH]; intros w; simpl.
  - lra.
  - specialize (IH (stress_step self opportunity w sc)).
    pose proof (stress_step_le w sc). lra.
Qed.

(** ... and never below zero when it starts from a non-negative value. *)
Lemma stress_loop_nonneg (scs : list scenario) (w : Q) :
  0 <= w -> 0 <= fold_left (stress_step self opportunity) scs w.
Proof.
  revert w. induction scs as [| sc scs IH]; intros w Hw; simpl.
  - exact Hw.
  - apply IH, stress_step_nonneg, Hw.
Qed.

(** A cap that holds before the stress test holds after it. *)
Lemma stress_test_keeps_cap (kelly cap : Q) :
  0 <= cap -> kelly <= cap ->
  _stress_test_position self kelly opportunity <= cap.
Proof.
  intros Hcap Hk. unfold _stress_test_position. cbv zeta.
  pose proof (stress_loop_le stress_scenarios kelly). lra.
Qed.

End StressTest.

(** C7. For a non-negative candidate fraction the stress test returns at
    most the candidate, for every opportunity (valid or not). *)
Theorem stress_test_never_increases self (kelly : Q) opportunity :
  0 <= kelly ->
  _stress_test_position self kelly opportunity <= kelly.
Proof.
  intros Hk. unfold _stress_test_position. cbv zeta.
  pose proof (stress_loop_le self opportunity stress_scenarios kelly).
  pose proof (stress_loop_nonneg self opportunity stress_scenarios kelly Hk).
  lra.
Qed.

(** The demo opportunity with the candidate at the default cap. *)
Lemma stress_test_never_increases_witness :
  0 <= 0.15
  /\ _stress_test_position default_optimizer 0.15 demo_opportunity <= 0.15.
Proof.
  split; [lra |].
  apply (stress_test_never_increases default_optimizer 0.15 demo_opportunity).
  lra.
Defined.

(** ** The portfolio constraint and the hard cap *)

(** Shrinking by a factor in [0,1] keeps a non-negative cap. *)
Lemma scale_keeps_cap (k r cap : Q) :
  0 <= cap -> k <= cap -> 0 <= r -> r <= 1 -> k * r <= cap.
Proof.
  intros Hcap Hk Hr0 Hr1.
  destruct (Qlt_le_dec k 0) as [Hneg | Hpos].
  - assert (k * r <= 0) by nra. lra.
  - assert (k * r <= k) by nra. lra.
Qed.

Lemma portfolio_constraints_capped self (kelly : Q) opportunity
    existing_positions (bankroll : Q) :
  0 <= max_position_size self ->
  _apply_portfolio_constraints self kelly opportunity existing_positions bankroll
    <= max_position_size self.
Proof.
  intros Hcap. unfold _apply_portfolio_constraints.
  destruct (py_min_spec kelly (max_position_size self)) as (_ & Hmin & _).
  set (k := Py.min kelly (max_position_size self)) in *.
  destruct existing_positions as [[| pos positions] |]; try exact Hmin.
  set (total := Py.sum _).
  cmp_cases; [| exact Hmin].
  destruct (py_max_spec 0.5 (1 - (total - max_correlation_exposure self)))
    as (Hlo & _ & Hcase).
  apply scale_keeps_cap; try assumption; [lra |].
  destruct Hcase as [-> | ->]; lra.
Qed.

(** C1, on the binary64 code.  At the price 1e-320, which passes
    validation, [1 / price] overflows and the base Kelly fraction is NaN;
    every later stage passes the NaN on, [min(kelly, max_position_size)]
    included, because its comparison with NaN is false.  The final position size is NaN, which is not
    [<= max_position_size], and the recommendation is SMALL_BUY. *)
Theorem binary64_position_at_tiny_price (float_pow : float -> float -> float)
    (int_true_div : Z -> Z -> B64.outcome float)
    (float_sum : list float -> float) :
  match B64.calculate_optimal_position float_pow int_true_div float_sum
          B64.default_optimizer B64.tiny_price_opportunity 1000 None with
  | B64.Returned r =>
      B64._validate_opportunity B64.default_optimizer
        B64.tiny_price_opportunity = true
      /\ PrimFloat.is_nan (B64.final_position_size r) = true
      /\ PrimFloat.leb (B64.final_position_size r)
           (B64.max_position_size B64.default_optimizer) = false
      /\ B64.recommendation r = "SMALL_BUY"
  | B64.Raised _ => False
  end.
Proof. vm_compute. repeat split. Qed.

(** X28. Whatever the bankroll and the existing positions, and whether or
    not the stress test is enabled, the final position size is at most
    [max_position_size], provided that cap is not negative and the
    opportunity is within the float range (a positive price is not below
    the smallest normal float, the hours to resolution are below 2^1024);
    this includes the result for an invalid opportunity. *)
Theorem final_position_size_capped_without_overflow float_pow self opportunity
    (bankroll : Q) existing_positions :
  0 <= max_position_size self ->
  within_float_range opportunity ->
  final_position_size
    (calculate_optimal_position float_pow self opportunity bankroll
       existing_positions)
  <= max_position_size self.
Proof.
  intros Hcap _. unfold calculate_optimal_position.
  destruct (negb (_validate_opportunity self opportunity)); [simpl; lra |].
  destruct (_apply_confidence_adjustment _ _ _) as [ck cp].
  destruct (_apply_risk_adjustments _ _ _ _) as [rk rp].
  simpl.
  pose proof (portfolio_constraints_capped self
                (_apply_kelly_mode_scaling self rk) opportunity
                existing_positions bankroll Hcap) as Hport.
  destruct (stress_test self); [| exact Hport].
  apply stress_test_keeps_cap; assumption.
Qed.

(** The default engine on the demo opportunity. *)
Lemma final_position_size_capped_without_overflow_witness :
  0 <= max_position_size default_optimizer
  /\ within_float_range demo_opportunity
  /\ final_position_size
       (calculate_optimal_position pow_whole default_optimizer demo_opportunity
          1000 None)
     <= 0.15.
Proof.
  assert (Hk : within_float_range demo_opportunity)
    by (split; [intros _; vm_compute; discriminate | reflexivity]).
  split; [simpl; lra |]. split; [exact Hk |].
  apply (final_position_size_capped_without_overflow pow_whole
           default_optimizer demo_opportunity 1000 None);
    [simpl; lra | exact Hk].
Defined.

(** ** Validation *)

Lemma validate_opportunity_spec self o :
  _validate_opportunity self o = true <-> within_validated_bounds o.
Proof.
  unfold _validate_opportunity, within_validated_bounds.
  cmp_cases; simpl; split; intros H; try discriminate H; try reflexivity;
    try (repeat split; assumption); lra.
Qed.

(** C2, as stated, fails: [bid_ask_spread < 0] and [time_to_resolution < 0]
    are not among the checks, so such an opportunity runs through the whole
    pipeline and comes back with a position. *)
Lemma negative_spread_not_rejected :
  bid_ask_spread unchecked_opportunity < 0
  /\ (time_to_resolution unchecked_opportunity < 0)%Z
  /\ _validate_opportunity default_optimizer unchecked_opportunity = true
  /\ (let r := calculate_optimal_position pow_whole default_optimizer
                 unchecked_opportunity 1000 None in
      kelly_fraction r == 37 # 65
      /\ final_position_size r == 34 # 325
      /\ recommendation r = "BUY_YES"
      /\ reasoning r = "Base Kelly: 0.569 | Confidence adjustment: -12.5% | Kelly mode: half | Final position: 10.5%").
Proof. repeat split; vm_compute; reflexivity. Qed.

(** C2, amended.  An opportunity that fails one of the four validated
    bounds (probability estimate or market price not strictly inside (0,1),
    confidence outside [0,1], negative liquidity) gets exactly the
    zero-size HOLD result with reasoning "Invalid opportunity parameters",
    whatever the engine, bankroll and existing positions are. *)
Theorem invalid_opportunity_short_circuits float_pow self o (bankroll : Q)
    existing_positions :
  ~ (0 < probability_estimate o /\ probability_estimate o < 1)
  \/ ~ (0 < market_price o /\ market_price o < 1)
  \/ ~ (0 <= confidence_level o /\ confidence_level o <= 1)
  \/ liquidity o < 0 ->
  calculate_optimal_position float_pow self o bankroll existing_positions
  = invalid_result.
Proof.
  intros Hbad. unfold calculate_optimal_position.
  destruct (_validate_opportunity self o) eqn:V; [| reflexivity].
  apply validate_opportunity_spec in V.
  destruct V as (Hp & Hm & Hc & Hl).
  destruct Hbad as [H | [H | [H | H]]]; try contradiction. lra.
Qed.

(** Probability estimate 1.5, every other field as in the demo. *)
Lemma invalid_opportunity_short_circuits_witness :
  calculate_optimal_position pow_whole default_optimizer
    {| probability_estimate := 1.5; market_price := 0.35;
       confidence_level := 0.85; liquidity := 5000.0;
       bid_ask_spread := 0.02; time_to_resolution := 720;
       market_id := "btc_100k_2024" |} 1000 None
  = invalid_result.
Proof.
  apply invalid_opportunity_short_circuits.
  left. simpl. intros [_ H]. lra.
Defined.

(** ** The bankroll *)

(** C9. The bankroll argument has no influence on any field of the result. *)
Theorem bankroll_independent float_pow self opportunity existing_positions
    (b1 b2 : Q) :
  calculate_optimal_position float_pow self opportunity b1 existing_positions
  = calculate_optimal_position float_pow self opportunity b2 existing_positions.
Proof.
  unfold calculate_optimal_position.
  destruct (negb (_validate_opportunity self opportunity)); [reflexivity |].
  destruct (_apply_confidence_adjustment _ _ _) as [ck cp].
  destruct (_apply_risk_adjustments _ _ _ _) as [rk rp].
  assert (Hport : forall k,
    _apply_portfolio_constraints self k opportunity existing_positions b1
    = _apply_portfolio_constraints self k opportunity existing_positions b2)
    by reflexivity.
  rewrite Hport. reflexivity.
Qed.

(** ** The confidence floor *)

Section ZeroPropagates.

Variable float_pow : Q -> Q -> Q.
Variables (self : AdvancedKellyOptimizer) (opportunity : MarketOpportunity).

Lemma risk_adjustments_zero (kelly : Q) :
  kelly == 0 ->
  fst (_apply_risk_adjustments float_pow self kelly opportunity) == 0.
Proof.
  intros Hk. unfold _apply_risk_adjustments.
  destruct (liquidity opportunity <? 1000);
    destruct (0.05 <? bid_ask_spread opportunity);
    destruct (2160 <? time_to_resolution opportunity)%Z;
    simpl; rewrite Hk; ring.
Qed.

Lemma kelly_mode_scaling_zero (kelly : Q) :
  kelly == 0 -> _apply_kelly_mode_scaling self kelly == 0.
Proof.
  intros Hk. unfold _apply_kelly_mode_scaling.
  destruct (kelly_mode self); cmp_cases; lra.
Qed.

Lemma portfolio_constraints_zero (kelly bankroll : Q) existing_positions :
  kelly == 0 -> 0 <= max_position_size self ->
  _apply_portfolio_constraints self kelly opportunity existing_positions
    bankroll == 0.
Proof.
  intros Hk Hcap. unfold _apply_portfolio_constraints.
  assert (Hmin : Py.min kelly (max_position_size self) == 0)
    by (unfold Py.min; cmp_cases; lra).
  destruct existing_positions as [[| pos positions] |]; try exact Hmin.
  cmp_cases; [| exact Hmin].
  rewrite Hmin. ring.
Qed.

Lemma stress_test_zero (kelly : Q) :
  kelly == 0 -> _stress_test_position self kelly opportunity == 0.
Proof.
  intros Hk. unfold _stress_test_position. cbv zeta.
  pose proof (stress_loop_le self opportunity stress_scenarios kelly).
  assert (H0 : 0 <= kelly) by lra.
  pose proof (stress_loop_nonneg self opportunity stress_scenarios kelly H0).
  lra.
Qed.

End ZeroPropagates.

(** C3, as stated, fails for an engine built with a negative
    [max_position_size]: the confidence stage yields 0, but the hard cap
    [min(0, -0.1)] then makes the fraction negative, and the stress test
    returns 80% of it. *)
Lemma low_confidence_negative_cap :
  _validate_opportunity negative_cap_optimizer low_confidence_opportunity = true
  /\ confidence_level low_confidence_opportunity
     < min_confidence_threshold negative_cap_optimizer
  /\ adjusted_fraction
       (calculate_optimal_position pow_whole negative_cap_optimizer
          low_confidence_opportunity 1000 None) == - (2 # 25)
  /\ final_position_size
       (calculate_optimal_position pow_whole negative_cap_optimizer
          low_confidence_opportunity 1000 None) == - (2 # 25).
Proof. repeat split; vm_compute; reflexivity. Qed.

(** C3, amended.  For an engine whose [max_position_size] is not negative,
    a valid opportunity with confidence below [min_confidence_threshold]
    gets adjusted fraction 0 and final position size 0, whatever its other
    fields, the Kelly mode, the existing positions and the stress-test
    flag. *)
Theorem low_confidence_no_bet float_pow self opportunity (bankroll : Q)
    existing_positions :
  0 <= max_position_size self ->
  _validate_opportunity self opportunity = true ->
  confidence_level opportunity < min_confidence_threshold self ->
  let r := calculate_optimal_position float_pow self opportunity bankroll
             existing_positions in
  adjusted_fraction r == 0 /\ final_position_size r == 0.
Proof.
  intros Hcap Hvalid Hconf. cbv zeta.
  unfold calculate_optimal_position. rewrite Hvalid. simpl negb. cbv iota.
  unfold _apply_confidence_adjustment.
  apply ltb_true in Hconf. rewrite Hconf.
  pose proof (risk_adjustments_zero float_pow self opportunity 0.0
                ltac:(reflexivity)) as Hrisk.
  destruct (_apply_risk_adjustments _ _ _ _) as [rk rp]. simpl in Hrisk.
  pose proof (portfolio_constraints_zero self opportunity
                (_apply_kelly_mode_scaling self rk) bankroll existing_positions
                (kelly_mode_scaling_zero self rk Hrisk) Hcap) as Hport.
  simpl.
  destruct (stress_test self).
  - split; apply stress_test_zero; exact Hport.
  - split; exact Hport.
Qed.

(** Confidence 0.55 under the default threshold 0.6 and default cap 0.15. *)
Lemma low_confidence_no_bet_witness :
  adjusted_fraction
    (calculate_optimal_position pow_whole default_optimizer
       low_confidence_opportunity 1000 None) == 0.
Proof.
  apply (low_confidence_no_bet pow_whole default_optimizer
           low_confidence_opportunity 1000 None).
  - simpl. lra.
  - reflexivity.
  - simpl. lra.
Defined.

(** ** The correlated multi-market path *)

Section CreateResults.

Variable self : AdvancedKellyOptimizer.

(** Markets that are not in the list keep their entry. *)
Lemma create_results_other (opps : list MarketOpportunity) (i : nat)
    (ks : list Q) (m : gmap string KellyResult) (id : string) :
  id ∉ map market_id opps ->
  create_results self opps i ks m !! id = m !! id.
Proof.
  revert i m. induction opps as [| o rest IH]; intros i m Hid; simpl.
  - reflexivity.
  - simpl in Hid. apply not_elem_of_cons in Hid as [Hne Hrest].
    rewrite IH by exact Hrest. apply lookup_insert_ne. congruence.
Qed.

(** With distinct market ids, the entry of the [j]-th opportunity is the
    result built from the [j]-th fraction. *)
Lemma create_results_lookup (opps : list MarketOpportunity) (i j : nat)
    (ks : list Q) (m : gmap string KellyResult) (o : MarketOpportunity) :
  NoDup (map market_id opps) ->
  opps !! j = Some o ->
  create_results self opps i ks m !! market_id o
  = Some (correlated_result self (List.nth (i + j) ks 0) o).
Proof.
  revert i j m. induction opps as [| o' rest IH]; intros i j m Hnd Hj.
  - discriminate Hj.
  - simpl in Hnd. apply NoDup_cons in Hnd as [Hfresh Hnd].
    destruct j as [| j]; simpl in Hj.
    + injection Hj as ->. simpl.
      rewrite create_results_other by exact Hfresh.
      rewrite Nat.add_0_r. apply lookup_insert_eq.
    + simpl. rewrite Nat.add_succ_r. apply (IH (S i) j); assumption.
Qed.

(** Every entry was either there before or was built from some
    opportunity of the list and the fraction at its index. *)
Lemma create_results_inv (opps : list MarketOpportunity) (i : nat)
    (ks : list Q) (m : gmap string KellyResult) (id : string)
    (r : KellyResult) :
  create_results self opps i ks m !! id = Some r ->
  m !! id = Some r
  \/ exists j o, opps !! j = Some o /\ market_id o = id
                 /\ r = correlated_result self (List.nth (i + j) ks 0) o.
Proof.
  revert i m. induction opps as [| o rest IH]; intros i m Hr; simpl in Hr.
  - left. exact Hr.
  - destruct (IH _ _ Hr) as [Hm | (j & o' & Hj & Hid & Heq)].
    + destruct (decide (market_id o = id)) as [Hsame | Hdiff].
      * subst id. rewrite lookup_insert_eq in Hm. injection Hm as <-.
        right. exists 0%nat, o. rewrite Nat.add_0_r. auto.
      * left. rewrite lookup_insert_ne in Hm by exact Hdiff. exact Hm.
    + right. exists (S j), o'. rewrite Nat.add_succ_r. auto.
Qed.

End CreateResults.

Lemma nth_scaled (c : Q) (ks : list Q) (j : nat) :
  (j < List.length ks)%nat ->
  List.nth j (map (fun k => k * c) ks) 0 = List.nth j ks 0 * c.
Proof.
  intros Hj.
  rewrite (nth_indep _ 0 (0 * c)) by (rewrite length_map; exact Hj).
  apply (map_nth (fun k => k * c)).
Qed.

Lemma individual_fractions_length float_pow self opps (bankroll : Q) :
  List.length (individual_fractions float_pow self opps bankroll)
  = List.length opps.
Proof. apply length_map. Qed.

(** What "scale down if total exceeds budget" produces, and when. *)
Lemma scale_to_budget_spec self (ks : list Q) :
  let budget := max_correlation_exposure self in
  let total := Py.sum ks in
  (budget < total /\ total == 0
   /\ scale_to_budget self ks = Py.Raised Py.ZeroDivisionError)
  \/ (budget < total /\ ~ total == 0
      /\ scale_to_budget self ks
         = Py.Returned (map (fun k => k * (budget / total)) ks))
  \/ (total <= budget /\ scale_to_budget self ks = Py.Returned ks).
Proof.
  cbv zeta. unfold scale_to_budget, Py.div.
  destruct (max_correlation_exposure self <? Py.sum ks) eqn:E.
  - apply ltb_true in E.
    destruct (Qeq_bool (Py.sum ks) 0) eqn:Z.
    + left. apply Qeq_bool_iff in Z. auto.
    + right; left. apply Qeq_bool_neq in Z. auto.
  - apply ltb_false in E. right; right. auto.
Qed.

(** C8, as stated, fails when market ids repeat: the three fractions sum to
    102/325, above the budget 0.3, each is scaled to 1/10, but the result
    dict has one entry per market id, so the returned sizes sum to 1/10.
    It also fails when the sum is 0 and the budget negative: the sum exceeds
    the budget, and the division for the scale factor raises. *)
Lemma repeated_market_total_below_budget :
  (max_correlation_exposure default_optimizer
   < Py.sum (individual_fractions pow_whole default_optimizer repeated_market
               1000)
   /\ match calculate_multi_market_kelly pow_whole default_optimizer
              repeated_market (Some []) 1000 with
      | Py.Returned results =>
          size results = 1%nat /\ total_position_size results == 1 # 10
      | Py.Raised _ => False
      end)
  /\ (max_correlation_exposure negative_budget_optimizer
      < Py.sum (individual_fractions pow_whole negative_budget_optimizer
                  [low_confidence_opportunity] 1000)
      /\ calculate_multi_market_kelly pow_whole negative_budget_optimizer
           [low_confidence_opportunity] (Some []) 1000
         = Py.Raised Py.ZeroDivisionError).
Proof.
  split; split; vm_compute; try reflexivity. split; reflexivity.
Qed.

(** In binary64 the scaled sizes of three distinct markets do not add up to
    the budget either, whichever way [sum] adds: the individual fractions
    sum to more than 0.3, each is scaled to 0.09999999999999999, and three
    times that is below the float 0.3. *)
Example binary64_scaled_sizes_miss_budget (float_pow : float -> float -> float)
    (int_true_div : Z -> Z -> B64.outcome float) :
  Forall
    (fun float_sum =>
       match B64.individual_fractions float_pow int_true_div float_sum
               B64.default_optimizer B64.three_markets 1000,
             B64.calculate_multi_market_kelly float_pow int_true_div float_sum
               B64.default_optimizer B64.three_markets (Some []) 1000 with
       | B64.Returned ks, B64.Returned results =>
           PrimFloat.ltb (B64.max_correlation_exposure B64.default_optimizer)
             (float_sum ks) = true
           /\ exists total budget,
               B64.exact_total results ["a"; "b"; "c"] = Some total
               /\ B64.to_Q (B64.max_correlation_exposure B64.default_optimizer)
                  = Some budget
               /\ total < budget
       | _, _ => False
       end)
    [B64.sum_left; B64.sum_compensated].
Proof.
  constructor; [| constructor; [| constructor]];
    vm_compute; (split; [reflexivity |]);
    do 2 eexists; (split; [reflexivity |]); (split; reflexivity).
Qed.

(** C8, amended.  With a correlation matrix and pairwise distinct market
    ids, whenever the call returns, the entry of each opportunity has as
    its final position size the individual fraction times (budget / sum)
    when the sum of the individual fractions exceeds the budget, and the
    individual fraction itself otherwise.  Nothing is said about the sum of
    the returned sizes. *)
Theorem budget_scaling_entries float_pow self opps corr (bankroll : Q)
    (results : gmap string KellyResult) :
  let ks := individual_fractions float_pow self opps bankroll in
  let budget := max_correlation_exposure self in
  let total := Py.sum ks in
  calculate_multi_market_kelly float_pow self opps (Some corr) bankroll
  = Py.Returned results ->
  NoDup (map market_id opps) ->
  forall i opp, opps !! i = Some opp ->
    exists r, results !! market_id opp = Some r
              /\ final_position_size r
                 = if budget <? total
                   then List.nth i ks 0 * (budget / total)
                   else List.nth i ks 0.
Proof.
  cbv zeta. intros Hret Hnd i opp Hi.
  unfold calculate_multi_market_kelly in Hret.
  set (ks := individual_fractions float_pow self opps bankroll) in *.
  assert (Hlen : List.length ks = List.length opps)
    by apply individual_fractions_length.
  destruct (scale_to_budget_spec self ks)
    as [(Hgt & Hz & E) | [(Hgt & Hne & E) | (Hle & E)]];
    rewrite E in Hret; [discriminate Hret | |]; injection Hret as <-.
  - exists (correlated_result self
              (List.nth i ks 0 * (max_correlation_exposure self / Py.sum ks))
              opp).
    split.
    + rewrite (create_results_lookup self opps 0 i _ _ opp Hnd Hi).
      simpl. rewrite nth_scaled; [reflexivity |].
      rewrite Hlen. apply lookup_lt_Some in Hi. exact Hi.
    + apply ltb_true in Hgt. rewrite Hgt. reflexivity.
  - exists (correlated_result self (List.nth i ks 0) opp).
    split.
    + apply (create_results_lookup self opps 0 i ks ∅ opp Hnd Hi).
    + apply ltb_false in Hle. rewrite Hle. reflexivity.
Qed.

(** Three markets with distinct ids whose fractions sum to 102/325, above
    the budget 0.3: the first one's entry holds its fraction 34/325 times
    (0.3 / (102/325)). *)
Lemma budget_scaling_entries_witness :
  NoDup (map market_id three_markets)
  /\ match calculate_multi_market_kelly pow_whole default_optimizer
             three_markets (Some []) 1000 with
     | Py.Returned results =>
         exists r, results !! "a" = Some r
                   /\ final_position_size r
                      == (34 # 325) * (0.3 / (102 # 325))
     | Py.Raised _ => False
     end.
Proof.
  assert (Hnd : NoDup (map market_id three_markets))
    by (apply (bool_decide_unpack _); vm_compute; exact I).
  split; [exact Hnd |].
  destruct (calculate_multi_market_kelly pow_whole default_optimizer
              three_markets (Some []) 1000) as [results | e] eqn:Hret.
  - destruct (budget_scaling_entries pow_whole default_optimizer three_markets
                [] 1000 results Hret Hnd 0%nat (demo_as "a") eq_refl)
      as (r & Hr & Hf).
    exists r. split; [exact Hr |]. rewrite Hf. vm_compute. reflexivity.
  - vm_compute in Hret. discriminate Hret.
Defined.

(** C10. In the correlated path every returned result has confidence and
    risk adjustment 0, and its Kelly fraction, adjusted fraction and final
    position size are all the budget-scaled fraction of one of the
    opportunities with that market id: the individual fraction times
    budget/sum when the sum exceeds the budget, the individual fraction
    otherwise.  The base Kelly value and the penalties of the individual
    evaluation do not appear. *)
Theorem correlated_results_fields float_pow self opps corr (bankroll : Q)
    (results : gmap string KellyResult) (id : string) (r : KellyResult) :
  calculate_multi_market_kelly float_pow self opps (Some corr) bankroll
  = Py.Returned results ->
  results !! id = Some r ->
  let ks := individual_fractions float_pow self opps bankroll in
  let budget := max_correlation_exposure self in
  let total := Py.sum ks in
  confidence_adjustment r = 0.0
  /\ risk_adjustment r = 0.0
  /\ exists i opp,
       opps !! i = Some opp /\ market_id opp = id
       /\ let scaled := if budget <? total
                        then List.nth i ks 0 * (budget / total)
                        else List.nth i ks 0 in
          kelly_fraction r = scaled
          /\ adjusted_fraction r = scaled
          /\ final_position_size r = scaled.
Proof.
  intros Hret Hr. cbv zeta.
  unfold calculate_multi_market_kelly in Hret.
  set (ks := individual_fractions float_pow self opps bankroll) in *.
  assert (Hlen : List.length ks = List.length opps)
    by apply individual_fractions_length.
  destruct (scale_to_budget_spec self ks)
    as [(Hgt & Hz & E) | [(Hgt & Hne & E) | (Hle & E)]];
    rewrite E in Hret; [discriminate Hret | |];
    injection Hret as <-;
    apply create_results_inv in Hr as [Hr | (j & o & Hj & Hid & ->)];
    try (rewrite lookup_empty in Hr; discriminate Hr);
    (split; [reflexivity |]); (split; [reflexivity |]);
    exists j, o; (split; [exact Hj |]); (split; [exact Hid |]); simpl.
  - apply ltb_true in Hgt. rewrite Hgt.
    rewrite nth_scaled; [auto |].
    rewrite Hlen. apply lookup_lt_Some in Hj. exact Hj.
  - apply ltb_false in Hle. rewrite Hle. auto.
Qed.

(** One market: the reported Kelly fraction is the adjusted fraction 34/325,
    not the base Kelly value 37/65. *)
Lemma correlated_results_fields_witness :
  exists results r,
    calculate_multi_market_kelly pow_whole default_optimizer [demo_opportunity]
      (Some []) 1000 = Py.Returned results
    /\ results !! "btc_100k_2024" = Some r
    /\ confidence_adjustment r = 0.0
    /\ risk_adjustment r = 0.0
    /\ kelly_fraction r == 34 # 325
    /\ _calculate_base_kelly default_optimizer demo_opportunity == 37 # 65.
Proof.
  set (ks := individual_fractions pow_whole default_optimizer
               [demo_opportunity] 1000).
  exists (create_results default_optimizer [demo_opportunity] 0 ks ∅),
         (correlated_result default_optimizer (List.nth 0 ks 0) demo_opportunity).
  assert (Hret : calculate_multi_market_kelly pow_whole default_optimizer
                   [demo_opportunity] (Some []) 1000
                 = Py.Returned
                     (create_results default_optimizer [demo_opportunity] 0 ks ∅))
    by (vm_compute; reflexivity).
  assert (Hr : create_results default_optimizer [demo_opportunity] 0 ks ∅
                 !! "btc_100k_2024"
               = Some (correlated_result default_optimizer (List.nth 0 ks 0)
                         demo_opportunity))
    by (vm_compute; reflexivity).
  destruct (correlated_results_fields pow_whole default_optimizer
              [demo_opportunity] [] 1000 _ _ _ Hret Hr) as (Hc & Hk & _).
  split; [exact Hret |]. split; [exact Hr |].
  split; [exact Hc |]. split; [exact Hk |].
  split; vm_compute; reflexivity.
Defined.

(** * Further properties of the engine *)

(** ** Base Kelly and expected value *)

Section KellyAndExpectedValue.

Variables (self : AdvancedKellyOptimizer).

(** Inside (0,1) the guards do not fire. *)
Lemma base_kelly_unguarded (o : MarketOpportunity) :
  0 < market_price o -> market_price o < 1 ->
  _calculate_base_kelly self o
  == Py.max ((probability_estimate o - market_price o) / (1 - market_price o)) 0.
Proof.
  intros H0 H1. unfold _calculate_base_kelly.
  pose proof (odds_positive _ H0 H1) as Hodds.
  destruct (_ || _) eqn:G.
  { apply orb_true_iff in G as [G | G]; apply leb_true in G; lra. }
  destruct (1 / market_price o - 1 <=? 0) eqn:E.
  { apply leb_true in E. lra. }
  set (p := probability_estimate o) in *. set (price := market_price o) in *.
  assert (Hk : (p * (1 / price - 1) - (1 - p)) / (1 / price - 1)
               == (p - price) / (1 - price)).
  { field. repeat split; lra. }
  cbv zeta.
  set (k := (p * (1 / price - 1) - (1 - p)) / (1 / price - 1)) in *.
  set (c := (p - price) / (1 - price)) in *.
  unfold Py.max. cmp_cases; lra.
Qed.

(** The two regimes of the base Kelly fraction, without a division. *)
Lemma base_kelly_cases (o : MarketOpportunity) :
  0 < market_price o -> market_price o < 1 ->
  0 <= _calculate_base_kelly self o
  /\ (probability_estimate o <= market_price o ->
      _calculate_base_kelly self o == 0)
  /\ (market_price o <= probability_estimate o ->
      _calculate_base_kelly self o * (1 - market_price o)
      == probability_estimate o - market_price o).
Proof.
  intros H0 H1.
  pose proof (base_kelly_unguarded o H0 H1) as Hk.
  pose proof (base_kelly_nonneg self o) as Hnn.
  set (p := probability_estimate o) in *. set (price := market_price o) in *.
  set (bk := _calculate_base_kelly self o) in *.
  assert (Hc : (p - price) / (1 - price) * (1 - price) == p - price)
    by (field; lra).
  set (c := (p - price) / (1 - price)) in *.
  unfold Py.max in Hk.
  split; [exact Hnn |].
  destruct (c <? 0) eqn:E; [apply ltb_true in E | apply ltb_false in E].
  - split; intros Hp; [lra | nra].
  - split; intros Hp; [nra | rewrite Hk; exact Hc].
Qed.

End KellyAndExpectedValue.



(** ** The confidence curve *)

(** The multiplier as the chain of comparisons that the lookup, the two
    clamps and the interpolation loop amount to on the built-in curve. *)
Lemma confidence_multiplier_unfold self (c : Q) :
  _get_confidence_multiplier self c
  = if c <=? 0.5 then 0.0
    else if 1.0 <=? c then 1.0
    else if (0.5 <=? c) && (c <=? 0.6)
         then 0.0 + (0.2 - 0.0) * (c - 0.5) / (0.6 - 0.5)
    else if (0.6 <=? c) && (c <=? 0.7)
         then 0.2 + (0.5 - 0.2) * (c - 0.6) / (0.7 - 0.6)
    else if (0.7 <=? c) && (c <=? 0.8)
         then 0.5 + (0.8 - 0.5) * (c - 0.7) / (0.8 - 0.7)
    else if (0.8 <=? c) && (c <=? 0.9)
         then 0.8 + (0.95 - 0.8) * (c - 0.8) / (0.9 - 0.8)
    else if (0.9 <=? c) && (c <=? 1.0)
         then 0.95 + (1.0 - 0.95) * (c - 0.9) / (1.0 - 0.9)
    else 0.0.
Proof. reflexivity. Qed.

(** On each stretch of the curve the multiplier is a line [a * c + b]. *)
Lemma confidence_multiplier_segment self (c : Q) :
  let m := _get_confidence_multiplier self c in
  (c <= 0.5 /\ m == 0)
  \/ (0.5 <= c /\ c <= 0.6 /\ m == 2 * c - 1)
  \/ (0.6 <= c /\ c <= 0.8 /\ m == 3 * c - 1.6)
  \/ (0.8 <= c /\ c <= 0.9 /\ m == 1.5 * c - 0.4)
  \/ (0.9 <= c /\ c <= 1 /\ m == 0.5 * c + 0.5)
  \/ (1 <= c /\ m == 1).
Proof.
  cbv zeta. rewrite confidence_multiplier_unfold.
  destruct (c <=? 0.5) eqn:E1; [apply leb_true in E1 | apply leb_false in E1].
  { left. split; [exact E1 | reflexivity]. }
  destruct (1.0 <=? c) eqn:E2; [apply leb_true in E2 | apply leb_false in E2].
  { do 5 right. split; [lra | reflexivity]. }
  destruct (0.5 <=? c) eqn:E3; [apply leb_true in E3 | apply leb_false in E3; lra].
  destruct (c <=? 0.6) eqn:E4; [apply leb_true in E4 | apply leb_false in E4]; simpl.
  { right; left. split; [lra |]. split; [lra |]. field. }
  destruct (0.6 <=? c) eqn:E5; [apply leb_true in E5 | apply leb_false in E5; lra].
  destruct (c <=? 0.7) eqn:E6; [apply leb_true in E6 | apply leb_false in E6]; simpl.
  { do 2 right; left. split; [lra |]. split; [lra |]. field. }
  destruct (0.7 <=? c) eqn:E7; [apply leb_true in E7 | apply leb_false in E7; lra].
  destruct (c <=? 0.8) eqn:E8; [apply leb_true in E8 | apply leb_false in E8]; simpl.
  { do 2 right; left. split; [lra |]. split; [lra |]. field. }
  destruct (0.8 <=? c) eqn:E9; [apply leb_true in E9 | apply leb_false in E9; lra].
  destruct (c <=? 0.9) eqn:E10; [apply leb_true in E10 | apply leb_false in E10]; simpl.
  { do 3 right; left. split; [lra |]. split; [lra |]. field. }
  destruct (0.9 <=? c) eqn:E11; [apply leb_true in E11 | apply leb_false in E11; lra].
  destruct (c <=? 1.0) eqn:E12; [apply leb_true in E12 | apply leb_false in E12; lra].
  simpl. do 4 right; left. split; [lra |]. split; [lra |]. field.
Qed.

(** X6. For every confidence the multiplier of the curve lies in [0,1]; it is
    0 up to confidence 0.5, positive above 0.5, and 1 from confidence 1 on,
    so the closing [return 0.0] of the interpolation loop is never what a
    confidence above 0.5 gets. *)
Theorem confidence_multiplier_range self (c : Q) :
  let m := _get_confidence_multiplier self c in
  0 <= m /\ m <= 1
  /\ (c <= 0.5 -> m == 0) /\ (0.5 < c -> 0 < m) /\ (1 <= c -> m == 1).
Proof.
  cbv zeta.
  destruct (confidence_multiplier_segment self c)
    as [H | [H | [H | [H | [H | H]]]]];
    repeat split; intros; lra.
Qed.

(** X7. The multiplier does not decrease when the confidence grows. *)
Theorem confidence_multiplier_monotone self (c1 c2 : Q) :
  c1 <= c2 ->
  _get_confidence_multiplier self c1 <= _get_confidence_multiplier self c2.
Proof.
  intros Hle.
  destruct (confidence_multiplier_segment self c1)
    as [H1 | [H1 | [H1 | [H1 | [H1 | H1]]]]];
    destruct (confidence_multiplier_segment self c2)
      as [H2 | [H2 | [H2 | [H2 | [H2 | H2]]]]];
    lra.
Qed.

Lemma confidence_multiplier_monotone_witness :
  0.55 <= 0.85
  /\ _get_confidence_multiplier default_optimizer 0.55
     <= _get_confidence_multiplier default_optimizer 0.85.
Proof.
  split; [lra |].
  apply (confidence_multiplier_monotone default_optimizer 0.55 0.85). lra.
Defined.

(** X8. The confidence adjustment reports a penalty in [0,1] for every
    confidence and threshold, turns a fraction in [0,1] into one between 0
    and itself, and below the threshold returns exactly (0.0, 1.0). *)
Theorem confidence_adjustment_bounds self (kelly confidence : Q) :
  let '(adjusted, penalty) :=
    _apply_confidence_adjustment self kelly confidence in
  (0 <= penalty /\ penalty <= 1)
  /\ (0 <= kelly /\ kelly <= 1 -> 0 <= adjusted /\ adjusted <= kelly)
  /\ (confidence < min_confidence_threshold self ->
      adjusted = 0.0 /\ penalty = 1.0).
Proof.
  unfold _apply_confidence_adjustment.
  destruct (confidence <? min_confidence_threshold self) eqn:E.
  - repeat split; intros; lra.
  - apply ltb_false in E.
    assert (Hm : 0 <= _get_confidence_multiplier self confidence
                 /\ _get_confidence_multiplier self confidence <= 1)
      by (destruct (confidence_multiplier_segment self confidence)
            as [H | [H | [H | [H | [H | H]]]]]; split; lra).
    destruct Hm as (H0 & H1).
    set (m := _get_confidence_multiplier self confidence) in *.
    cbv zeta. repeat split; intros; try lra; nra.
Qed.

(** ** Risk adjustments, mode scaling and the portfolio constraint *)

(** Multiplying a non-negative fraction by a factor in [lo,1]. *)
Lemma shrink_step (k r lo : Q) :
  0 <= k -> 0 <= lo -> lo <= r -> r <= 1 ->
  lo * k <= k * r /\ k * r <= k /\ 0 <= k * r.
Proof. intros. repeat split; nra. Qed.

(** The spread multiplier, once the spread exceeds 0.05. *)
Lemma spread_multiplier_range (spread : Q) :
  0.05 < spread ->
  0.5 <= Py.max (1 - spread * 2) 0.5 /\ Py.max (1 - spread * 2) 0.5 <= 0.9.
Proof.
  intros H. unfold Py.max. cmp_cases; split; lra.
Qed.



(** X10. Mode scaling keeps a non-negative fraction between a quarter of
    itself and itself, in every mode. *)
Theorem kelly_mode_scaling_bounds self (kelly : Q) :
  0 <= kelly ->
  0.25 * kelly <= _apply_kelly_mode_scaling self kelly
  /\ _apply_kelly_mode_scaling self kelly <= kelly.
Proof.
  intros Hk. unfold _apply_kelly_mode_scaling.
  destruct (kelly_mode self); cmp_cases; split; lra.
Qed.

Lemma kelly_mode_scaling_bounds_witness :
  0.25 * 0.3 <= _apply_kelly_mode_scaling adaptive_optimizer 0.3
  /\ _apply_kelly_mode_scaling adaptive_optimizer 0.3 <= 0.3.
Proof. apply (kelly_mode_scaling_bounds adaptive_optimizer 0.3). lra. Defined.

(** X11. Adaptive scaling is not monotone: just above each tier boundary the
    scaled fraction is smaller than at the boundary.  Every fraction in
    (0.1, 0.15) is scaled below what 0.1 is scaled to, and every fraction in
    (0.2, 0.4) below what 0.2 is scaled to. *)
Theorem adaptive_scaling_drops_at_tiers self (kelly : Q) :
  kelly_mode self = ADAPTIVE ->
  (0.1 < kelly /\ kelly < 0.15 ->
   _apply_kelly_mode_scaling self kelly < _apply_kelly_mode_scaling self 0.1)
  /\ (0.2 < kelly /\ kelly < 0.4 ->
      _apply_kelly_mode_scaling self kelly < _apply_kelly_mode_scaling self 0.2).
Proof.
  intros Hmode. unfold _apply_kelly_mode_scaling. rewrite Hmode.
  split; intros [Hlo Hhi].
  - change (0.2 <? 0.1) with false. change (0.1 <? 0.1) with false.
    cbv iota. cmp_cases; lra.
  - change (0.2 <? 0.2) with false. change (0.1 <? 0.2) with true.
    cbv iota. cmp_cases; lra.
Qed.

Lemma adaptive_scaling_drops_at_tiers_witness :
  _apply_kelly_mode_scaling adaptive_optimizer 0.12
  < _apply_kelly_mode_scaling adaptive_optimizer 0.1.
Proof.
  destruct (adaptive_scaling_drops_at_tiers adaptive_optimizer 0.12
              eq_refl) as (Hdrop & _).
  apply Hdrop. split; reflexivity.
Defined.

(** The exposure of positions that all lack the key is 0. *)
Lemma exposure_without_key (positions : list (gmap string Q)) (a : Q) :
  Forall (fun pos => pos !! "position_size"%string = None) positions ->
  fold_left Qplus (map position_size_of positions) a == a.
Proof.
  intros Hall. revert a.
  induction Hall as [| pos positions Hpos _ IH]; intros a; simpl.
  - reflexivity.
  - rewrite IH. unfold position_size_of. rewrite Hpos. simpl. ring.
Qed.

(** X12. The portfolio constraint on a non-negative fraction under a
    non-negative cap returns between half of [min(kelly, cap)] and
    [min(kelly, cap)]: existing exposure never takes away more than half.
    Without existing positions (none given, or an empty list) it returns
    exactly [min(kelly, cap)]. *)
Theorem portfolio_constraints_bounds self (kelly : Q) (o : MarketOpportunity)
    existing_positions (bankroll : Q) :
  0 <= kelly -> 0 <= max_position_size self ->
  let capped := Py.min kelly (max_position_size self) in
  let r := _apply_portfolio_constraints self kelly o existing_positions
             bankroll in
  0.5 * capped <= r /\ r <= capped
  /\ (existing_positions = None \/ existing_positions = Some [] -> r = capped).
Proof.
  intros Hk Hcap. cbv zeta. unfold _apply_portfolio_constraints.
  assert (Hm : 0 <= Py.min kelly (max_position_size self))
    by (destruct (py_min_spec kelly (max_position_size self))
          as (_ & _ & [-> | ->]); assumption).
  set (m := Py.min kelly (max_position_size self)) in *.
  destruct existing_positions as [[| pos positions] |].
  - repeat split; auto; lra.
  - set (total := Py.sum _).
    assert (Hne : ~ (Some (pos :: positions) = None
                     \/ Some (pos :: positions) = Some []))
      by (intros [H | H]; discriminate H).
    cmp_cases; [| repeat split; try lra; intros H; destruct (Hne H)].
    destruct (py_max_spec 0.5 (1 - (total - max_correlation_exposure self)))
      as (Hlo & _ & Hcase).
    assert (Hhi : Py.max 0.5 (1 - (total - max_correlation_exposure self)) <= 1)
      by (destruct Hcase as [-> | ->]; lra).
    destruct (shrink_step m _ 0.5 Hm ltac:(lra) Hlo Hhi) as (Ha & Hb & _).
    repeat split; try assumption. intros H; destruct (Hne H).
  - repeat split; auto; lra.
Qed.

Lemma portfolio_constraints_bounds_witness :
  0.5 * Py.min 0.2 0.15
  <= _apply_portfolio_constraints default_optimizer 0.2 demo_opportunity
       (Some [ {[ "position_size"%string := 0.35 ]} ]) 1000
  /\ _apply_portfolio_constraints default_optimizer 0.2 demo_opportunity
       (Some [ {[ "position_size"%string := 0.35 ]} ]) 1000
     <= Py.min 0.2 0.15.
Proof.
  destruct (portfolio_constraints_bounds default_optimizer 0.2 demo_opportunity
              (Some [ {[ "position_size"%string := 0.35 ]} ]) 1000)
    as (Hlo & Hhi & _); [lra | simpl; lra |].
  split; [exact Hlo | exact Hhi].
Defined.

(** X13. A position dict without the key [position_size] counts as exposure
    0: when no dict of the list has the key and the correlation budget is
    not negative, the constraint is the hard cap alone. *)
Theorem positions_without_key_are_ignored self (kelly : Q)
    (o : MarketOpportunity) (positions : list (gmap string Q)) (bankroll : Q) :
  Forall (fun pos => pos !! "position_size"%string = None) positions ->
  0 <= max_correlation_exposure self ->
  _apply_portfolio_constraints self kelly o (Some positions) bankroll
  = Py.min kelly (max_position_size self).
Proof.
  intros Hall Hbudget. unfold _apply_portfolio_constraints.
  destruct positions as [| pos positions]; [reflexivity |].
  pose proof (exposure_without_key (pos :: positions) 0 Hall) as Hsum.
  fold (Py.sum (map position_size_of (pos :: positions))) in Hsum.
  destruct (max_correlation_exposure self
            <? Py.sum (map position_size_of (pos :: positions))) eqn:E;
    [| reflexivity].
  apply ltb_true in E. lra.
Qed.

Lemma positions_without_key_are_ignored_witness :
  _apply_portfolio_constraints default_optimizer 0.2 demo_opportunity
    (Some [ {[ "size"%string := 0.9 ]}; ∅ ]) 1000
  = Py.min 0.2 0.15.
Proof.
  apply (positions_without_key_are_ignored default_optimizer 0.2
           demo_opportunity [ {[ "size"%string := 0.9 ]}; ∅ ] 1000).
  - repeat constructor.
  - simpl. lra.
Defined.

(** ** The whole pipeline *)

Section Pipeline.

Variable float_pow : Q -> Q -> Q.
Variables (self : AdvancedKellyOptimizer) (o : MarketOpportunity).

Local Abbreviation tm := (time_mult float_pow self o).
Local Abbreviation mode_adjusted := (mode_adjusted_kelly float_pow self o).

Lemma confidence_adjusted_range (kelly confidence : Q) :
  0 <= kelly ->
  0 <= fst (_apply_confidence_adjustment self kelly confidence)
  /\ fst (_apply_confidence_adjustment self kelly confidence) <= kelly
  /\ 0 <= snd (_apply_confidence_adjustment self kelly confidence)
  /\ snd (_apply_confidence_adjustment self kelly confidence) <= 1.
Proof.
  intros Hk. unfold _apply_confidence_adjustment.
  destruct (confidence <? min_confidence_threshold self); simpl.
  - repeat split; lra.
  - destruct (confidence_multiplier_segment self confidence)
      as [H | [H | [H | [H | [H | H]]]]];
      set (m := _get_confidence_multiplier self confidence) in *;
      repeat split; try lra; nra.
Qed.

Lemma risk_adjusted_range (kelly : Q) :
  0 <= kelly ->
  ((2160 < time_to_resolution o)%Z -> 0 <= tm) ->
  0 <= fst (_apply_risk_adjustments float_pow self kelly o)
  /\ (((2160 < time_to_resolution o)%Z -> tm <= 1) ->
      fst (_apply_risk_adjustments float_pow self kelly o) <= kelly).
Proof.
  intros Hk Hpow. unfold _apply_risk_adjustments, liquidity_penalty.
  fold (time_mult float_pow self o).
  set (k1 := if liquidity o <? 1000 then kelly * 0.9 else kelly).
  assert (H1 : 0 <= k1 /\ k1 <= kelly)
    by (unfold k1; destruct (liquidity o <? 1000); split; lra).
  destruct H1 as (Hk1a & Hk1b).
  destruct (liquidity o <? 1000); fold k1; clearbody k1;
    (destruct (0.05 <? bid_ask_spread o) eqn:Es;
       [apply ltb_true in Es;
        destruct (spread_multiplier_range _ Es) as (Hs0 & Hs1);
        set (s := Py.max (1 - bid_ask_spread o * 2) 0.5) in *;
        destruct (shrink_step k1 s 0.5 Hk1a ltac:(lra) Hs0 ltac:(lra))
          as (_ & Hsb & Hsc)
       | apply ltb_false in Es]);
    (destruct (2160 <? time_to_resolution o)%Z eqn:Et;
       [apply Z.ltb_lt in Et; specialize (Hpow Et) | apply Z.ltb_ge in Et]);
    simpl; (split; [try lra; nra |]); intros Hle;
    try specialize (Hle Et); try lra; nra.
Qed.

Lemma mode_adjusted_range :
  ((2160 < time_to_resolution o)%Z -> 0 <= tm) ->
  0 <= mode_adjusted
  /\ (((2160 < time_to_resolution o)%Z -> tm <= 1) ->
      mode_adjusted <= _calculate_base_kelly self o).
Proof.
  intros Hpow. unfold mode_adjusted_kelly.
  pose proof (base_kelly_nonneg self o) as Hb.
  destruct (confidence_adjusted_range (_calculate_base_kelly self o)
              (confidence_level o) Hb) as (Hc0 & Hc1 & _).
  set (ck := fst (_apply_confidence_adjustment self _ _)) in *.
  destruct (risk_adjusted_range ck Hc0 Hpow) as (Hr0 & Hr1).
  set (rk := fst (_apply_risk_adjustments float_pow self ck o)) in *.
  assert (Hm : 0.25 * rk <= _apply_kelly_mode_scaling self rk
               /\ _apply_kelly_mode_scaling self rk <= rk)
    by (unfold _apply_kelly_mode_scaling;
        destruct (kelly_mode self); cmp_cases; split; lra).
  destruct Hm as (Hm0 & Hm1).
  split; [lra |]. intros Hle. specialize (Hr1 Hle). lra.
Qed.

(** The result of a valid opportunity, stage by stage. *)
Lemma valid_result (bankroll : Q) existing_positions :
  _validate_opportunity self o = true ->
  let pre := pre_stress_kelly float_pow self o bankroll existing_positions in
  let final_kelly :=
    if stress_test self then _stress_test_position self pre o else pre in
  let r := calculate_optimal_position float_pow self o bankroll
             existing_positions in
  final_position_size r = final_kelly
  /\ adjusted_fraction r = final_kelly
  /\ kelly_fraction r = _calculate_base_kelly self o
  /\ expected_value r = _calculate_expected_value self o
  /\ confidence_adjustment r
     = snd (_apply_confidence_adjustment self (_calculate_base_kelly self o)
              (confidence_level o))
  /\ recommendation r
     = _generate_recommendation self final_kelly
         (_calculate_expected_value self o) o.
Proof.
  intros Hvalid. cbv zeta.
  unfold calculate_optimal_position, pre_stress_kelly, mode_adjusted_kelly.
  rewrite Hvalid. simpl negb. cbv iota.
  destruct (_apply_confidence_adjustment _ _ _) as [ck cp].
  destruct (_apply_risk_adjustments _ _ _ _) as [rk rp].
  simpl. repeat split; reflexivity.
Qed.

Lemma portfolio_constraints_nonincreasing (kelly bankroll : Q)
    existing_positions :
  0 <= kelly ->
  _apply_portfolio_constraints self kelly o existing_positions bankroll
  <= kelly.
Proof.
  intros Hk. unfold _apply_portfolio_constraints.
  destruct (py_min_spec kelly (max_position_size self)) as (Hmin & _ & _).
  set (m := Py.min kelly (max_position_size self)) in *.
  destruct existing_positions as [[| pos positions] |]; try exact Hmin.
  set (total := Py.sum _).
  cmp_cases; [| exact Hmin].
  destruct (py_max_spec 0.5 (1 - (total - max_correlation_exposure self)))
    as (Hlo & _ & Hcase).
  apply scale_keeps_cap; try assumption; [lra |].
  destruct Hcase as [-> | ->]; lra.
Qed.

Lemma portfolio_constraints_nonneg (kelly bankroll : Q) existing_positions :
  0 <= kelly -> 0 <= max_position_size self ->
  0 <= _apply_portfolio_constraints self kelly o existing_positions bankroll.
Proof.
  intros Hk Hcap. unfold _apply_portfolio_constraints.
  assert (Hm : 0 <= Py.min kelly (max_position_size self))
    by (destruct (py_min_spec kelly (max_position_size self))
          as (_ & _ & [-> | ->]); assumption).
  set (m := Py.min kelly (max_position_size self)) in *.
  destruct existing_positions as [[| pos positions] |]; try exact Hm.
  set (total := Py.sum _).
  cmp_cases; [| exact Hm].
  destruct (py_max_spec 0.5 (1 - (total - max_correlation_exposure self)))
    as (Hlo & _ & _).
  nra.
Qed.

End Pipeline.

(** The recommendation computed from an opportunity's own expected value is
    never BUY_NO: a positive expected value means the estimate exceeds the
    price. *)
Lemma recommendation_of_expected_value self (kelly : Q) (o : MarketOpportunity) :
  let r := _generate_recommendation self kelly
             (_calculate_expected_value self o) o in
  r = "HOLD" \/ r = "BUY_YES" \/ r = "SMALL_BUY".
Proof.
  cbv zeta. unfold _generate_recommendation.
  destruct (kelly <? 0.01); simpl; [left; reflexivity |].
  destruct (_calculate_expected_value self o <=? 0) eqn:Ev;
    [left; reflexivity |].
  apply leb_false in Ev.
  destruct (0.05 <=? kelly); [| right; right; reflexivity].
  right; left.
  unfold _calculate_expected_value in Ev.
  destruct (_ || _) eqn:G; [lra |].
  apply orb_false_iff in G as [G1 G2].
  apply leb_false in G1. apply leb_false in G2.
  assert (He : probability_estimate o / market_price o * market_price o
               == probability_estimate o) by (field; lra).
  set (e := probability_estimate o / market_price o) in *.
  assert (Hlt : market_price o < probability_estimate o) by nra.
  apply ltb_true in Hlt. rewrite Hlt. reflexivity.
Qed.

Lemma optimal_position_recommendation float_pow self (o : MarketOpportunity)
    (bankroll : Q) existing_positions :
  let r := recommendation
             (calculate_optimal_position float_pow self o bankroll
                existing_positions) in
  r = "HOLD" \/ r = "BUY_YES" \/ r = "SMALL_BUY".
Proof.
  cbv zeta.
  destruct (_validate_opportunity self o) eqn:Hvalid.
  - destruct (valid_result float_pow self o bankroll existing_positions Hvalid)
      as (_ & _ & _ & _ & _ & ->).
    apply recommendation_of_expected_value.
  - unfold calculate_optimal_position. rewrite Hvalid. simpl.
    left. reflexivity.
Qed.

(** X14. With the stress test enabled, a cap that is at least the smallest
    normal float and an opportunity within the float range, the final
    position size stays strictly below [max_position_size]: the stress test
    publishes 80% of a value that is at most the cap. *)
Theorem stress_tested_size_below_cap float_pow self (o : MarketOpportunity)
    (bankroll : Q) existing_positions :
  stress_test self = true ->
  min_normal <= max_position_size self ->
  within_float_range o ->
  final_position_size
    (calculate_optimal_position float_pow self o bankroll existing_positions)
  < max_position_size self.
Proof.
  intros Hstress Hmin _.
  assert (Hpos : 0 < max_position_size self)
    by (apply Qlt_le_trans with min_normal; [reflexivity | exact Hmin]).
  assert (Hcap : 0 <= max_position_size self) by lra.
  destruct (_validate_opportunity self o) eqn:Hvalid.
  - destruct (valid_result float_pow self o bankroll existing_positions Hvalid)
      as (-> & _).
    rewrite Hstress. unfold _stress_test_position. cbv zeta.
    pose proof (portfolio_constraints_capped self
                  (mode_adjusted_kelly float_pow self o) o existing_positions
                  bankroll Hcap) as Hpre.
    fold (pre_stress_kelly float_pow self o bankroll existing_positions) in Hpre.
    pose proof (stress_loop_le self o stress_scenarios
                  (pre_stress_kelly float_pow self o bankroll
                     existing_positions)).
    lra.
  - unfold calculate_optimal_position. rewrite Hvalid. simpl. lra.
Qed.

Lemma stress_tested_size_below_cap_witness :
  stress_test default_optimizer = true
  /\ final_position_size
       (calculate_optimal_position pow_whole default_optimizer
          demo_opportunity 1000 None)
     < 0.15.
Proof.
  split; [reflexivity |].
  apply (stress_tested_size_below_cap pow_whole default_optimizer
           demo_opportunity 1000 None);
    [reflexivity | vm_compute; discriminate
    | split; [intros _; vm_compute; discriminate | reflexivity]].
Defined.

(** X15. With the stress test enabled, an opportunity within the float range
    whose estimate is at most 0.2 above a price of at least 0.01 always ends
    with a final position size below 0.01 and the recommendation HOLD: the
    first stress scenario takes 0.2 off the estimate and leaves no edge. *)
Theorem small_edge_is_held float_pow self (o : MarketOpportunity)
    (bankroll : Q) existing_positions :
  stress_test self = true ->
  within_float_range o ->
  0.01 <= market_price o ->
  probability_estimate o <= market_price o + 0.2 ->
  let r := calculate_optimal_position float_pow self o bankroll
             existing_positions in
  final_position_size r < 0.01 /\ recommendation r = "HOLD".
Proof.
  intros Hstress _ Hprice Hedge. cbv zeta.
  destruct (_validate_opportunity self o) eqn:Hvalid.
  - destruct (valid_result float_pow self o bankroll existing_positions Hvalid)
      as (-> & _ & _ & _ & _ & ->).
    rewrite Hstress.
    apply validate_opportunity_spec in Hvalid.
    destruct Hvalid as (_ & (Hm0 & Hm1) & _).
    set (pre := pre_stress_kelly float_pow self o bankroll existing_positions).
    assert (Hfinal : _stress_test_position self pre o <= 0).
    { unfold _stress_test_position, stress_scenarios. cbv zeta.
      cbn [fold_left].
      match goal with
      | |- stress_step _ _ (stress_step _ _ ?w ?s2) ?s3 * _ <= _ =>
          pose proof (stress_step_le self o (stress_step self o w s2) s3);
          pose proof (stress_step_le self o w s2);
          assert (Hfirst : w <= 0)
      end.
      { unfold stress_step.
        match goal with
        | |- Py.min pre (_calculate_base_kelly self ?so * 0.5) <= 0 =>
            destruct (py_min_spec pre (_calculate_base_kelly self so * 0.5))
              as (_ & Hle & _);
            destruct (base_kelly_cases self so Hm0 Hm1) as (_ & Hzero & _);
            assert (Hsp : probability_estimate so <= market_price so)
              by (simpl; unfold Py.max; cmp_cases; lra)
        end.
        specialize (Hzero Hsp). lra. }
      lra. }
    assert (Hlt : _stress_test_position self pre o < 0.01) by lra.
    split; [exact Hlt |].
    unfold _generate_recommendation.
    apply ltb_true in Hlt. rewrite Hlt. reflexivity.
  - unfold calculate_optimal_position. rewrite Hvalid. simpl.
    split; [lra | reflexivity].
Qed.

Lemma small_edge_is_held_witness :
  let r := calculate_optimal_position pow_whole default_optimizer
             {| probability_estimate := 0.55; market_price := 0.35;
                confidence_level := 0.95; liquidity := 5000.0;
                bid_ask_spread := 0.02; time_to_resolution := 720;
                market_id := "btc_100k_2024" |} 1000 None in
  final_position_size r < 0.01 /\ recommendation r = "HOLD".
Proof.
  cbv zeta.
  match goal with
  | |- final_position_size (calculate_optimal_position _ _ ?o _ _) < _ /\ _ =>
      apply (small_edge_is_held pow_whole default_optimizer o 1000 None)
  end;
    [reflexivity
    | split; [intros _; vm_compute; discriminate | reflexivity]
    | simpl; lra | simpl; lra].
Defined.

(** X16. [calculate_optimal_position] never recommends BUY_NO: for every
    engine, opportunity, bankroll and existing positions the recommendation
    is HOLD, BUY_YES or SMALL_BUY. *)
Theorem never_buy_no float_pow self (o : MarketOpportunity) (bankroll : Q)
    existing_positions :
  let r := recommendation
             (calculate_optimal_position float_pow self o bankroll
                existing_positions) in
  r = "HOLD" \/ r = "BUY_YES" \/ r = "SMALL_BUY".
Proof. apply optimal_position_recommendation. Qed.

(** X17. For an opportunity within the float range: whenever the
    recommendation is not HOLD, the opportunity passed validation, the final
    position size is at least 0.01, the expected value is positive and the
    estimate exceeds the market price. *)
Theorem buy_needs_size_and_edge float_pow self (o : MarketOpportunity)
    (bankroll : Q) existing_positions :
  let r := calculate_optimal_position float_pow self o bankroll
             existing_positions in
  within_float_range o ->
  recommendation r <> "HOLD" ->
  _validate_opportunity self o = true
  /\ 0.01 <= final_position_size r
  /\ 0 < expected_value r
  /\ market_price o < probability_estimate o.
Proof.
  cbv zeta. intros _ Hrec.
  destruct (_validate_opportunity self o) eqn:Hvalid.
  - destruct (valid_result float_pow self o bankroll existing_positions Hvalid)
      as (Hf & _ & _ & He & _ & Hr).
    rewrite Hf, He. rewrite Hr in Hrec.
    apply validate_opportunity_spec in Hvalid.
    destruct Hvalid as (_ & (Hm0 & Hm1) & _).
    unfold _generate_recommendation in Hrec.
    match type of Hrec with
    | context [?k <? 0.01] =>
        destruct (k <? 0.01) eqn:Ek;
          [destruct Hrec; reflexivity | apply ltb_false in Ek]
    end.
    destruct (_calculate_expected_value self o <=? 0) eqn:Ev;
      [destruct Hrec; reflexivity | apply leb_false in Ev].
    repeat split; try assumption.
    unfold _calculate_expected_value in Ev.
    destruct (_ || _); [lra |].
    assert (Hq : probability_estimate o / market_price o * market_price o
                 == probability_estimate o) by (field; lra).
    set (e := probability_estimate o / market_price o) in *.
    nra.
  - unfold calculate_optimal_position in Hrec. rewrite Hvalid in Hrec.
    destruct Hrec. reflexivity.
Qed.

Lemma buy_needs_size_and_edge_witness :
  recommendation
    (calculate_optimal_position pow_whole default_optimizer demo_opportunity
       1000 None) = "BUY_YES"
  /\ 0.01 <= final_position_size
               (calculate_optimal_position pow_whole default_optimizer
                  demo_opportunity 1000 None).
Proof.
  split; [vm_compute; reflexivity |].
  apply (buy_needs_size_and_edge pow_whole default_optimizer demo_opportunity
           1000 None).
  - split; [intros _; vm_compute; discriminate | reflexivity].
  - vm_compute. discriminate.
Defined.

(** X18. For an opportunity within the float range, every result, valid
    input or not, is well formed: the adjusted fraction and the final
    position size are the same number, the reported Kelly fraction lies in
    [0,1], and the confidence penalty in [0,1]. *)
Theorem result_well_formed float_pow self (o : MarketOpportunity)
    (bankroll : Q) existing_positions :
  within_float_range o ->
  let r := calculate_optimal_position float_pow self o bankroll
             existing_positions in
  adjusted_fraction r = final_position_size r
  /\ 0 <= kelly_fraction r /\ kelly_fraction r <= 1
  /\ 0 <= confidence_adjustment r /\ confidence_adjustment r <= 1.
Proof.
  intros _. cbv zeta.
  destruct (_validate_opportunity self o) eqn:Hvalid.
  - destruct (valid_result float_pow self o bankroll existing_positions Hvalid)
      as (-> & -> & -> & _ & -> & _).
    apply validate_opportunity_spec in Hvalid.
    destruct Hvalid as ((Hp0 & Hp1) & (Hm0 & Hm1) & _).
    pose proof (base_kelly_nonneg self o) as Hb.
    destruct (confidence_adjusted_range self (_calculate_base_kelly self o)
                (confidence_level o) Hb) as (_ & _ & Hc0 & Hc1).
    destruct (base_kelly_cases self o Hm0 Hm1) as (_ & Hlo & Hhi).
    split; [reflexivity |]. split; [exact Hb |].
    split; [| split; assumption].
    destruct (Qlt_le_dec (market_price o) (probability_estimate o)) as [Hlt | Hle].
    + assert (Hle : market_price o <= probability_estimate o) by lra.
      specialize (Hhi Hle). nra.
    + specialize (Hlo Hle). lra.
  - unfold calculate_optimal_position. rewrite Hvalid. simpl.
    repeat split; lra.
Qed.

Lemma result_well_formed_witness :
  within_float_range demo_opportunity
  /\ kelly_fraction
       (calculate_optimal_position pow_whole default_optimizer
          demo_opportunity 1000 None) <= 1.
Proof.
  assert (Hk : within_float_range demo_opportunity)
    by (split; [intros _; vm_compute; discriminate | reflexivity]).
  split; [exact Hk |].
  apply (result_well_formed pow_whole default_optimizer demo_opportunity 1000
           None Hk).
Defined.

(** X19. With a non-negative cap, an opportunity within the float range,
    and a non-negative power where the time decay applies, the final
    position size is never negative. *)
Theorem final_position_size_nonneg float_pow self (o : MarketOpportunity)
    (bankroll : Q) existing_positions :
  0 <= max_position_size self ->
  within_float_range o ->
  ((2160 < time_to_resolution o)%Z -> 0 <= time_mult float_pow self o) ->
  0 <= final_position_size
         (calculate_optimal_position float_pow self o bankroll
            existing_positions).
Proof.
  intros Hcap _ Hpow.
  destruct (_validate_opportunity self o) eqn:Hvalid.
  - destruct (valid_result float_pow self o bankroll existing_positions Hvalid)
      as (-> & _).
    destruct (mode_adjusted_range float_pow self o Hpow) as (Hm0 & _).
    pose proof (portfolio_constraints_nonneg self o
                  (mode_adjusted_kelly float_pow self o) bankroll
                  existing_positions Hm0 Hcap) as Hpre.
    fold (pre_stress_kelly float_pow self o bankroll existing_positions) in Hpre.
    destruct (stress_test self); [| exact Hpre].
    unfold _stress_test_position. cbv zeta.
    pose proof (stress_loop_nonneg self o stress_scenarios _ Hpre). lra.
  - unfold calculate_optimal_position. rewrite Hvalid. simpl. lra.
Qed.

Lemma final_position_size_nonneg_witness :
  (2160 < time_to_resolution long_dated_opportunity)%Z
  /\ 0 <= final_position_size
            (calculate_optimal_position pow_whole default_optimizer
               long_dated_opportunity 1000 None).
Proof.
  split; [reflexivity |].
  apply (final_position_size_nonneg pow_whole default_optimizer
           long_dated_opportunity 1000 None).
  - simpl. lra.
  - split; [intros _; vm_compute; discriminate | reflexivity].
  - intros _. vm_compute. discriminate.
Defined.

(** X20. With an opportunity within the float range, and a power in [0,1]
    where the time decay applies, the final position size is at most the
    reported base Kelly fraction: no stage of the pipeline raises the stake
    above raw Kelly. *)
Theorem final_position_size_at_most_kelly float_pow self
    (o : MarketOpportunity) (bankroll : Q) existing_positions :
  within_float_range o ->
  ((2160 < time_to_resolution o)%Z ->
   0 <= time_mult float_pow self o /\ time_mult float_pow self o <= 1) ->
  let r := calculate_optimal_position float_pow self o bankroll
             existing_positions in
  final_position_size r <= kelly_fraction r.
Proof.
  intros _ Hpow. cbv zeta.
  destruct (_validate_opportunity self o) eqn:Hvalid.
  - destruct (valid_result float_pow self o bankroll existing_positions Hvalid)
      as (-> & _ & -> & _).
    pose proof (base_kelly_nonneg self o) as Hb.
    destruct (mode_adjusted_range float_pow self o
                (fun H => proj1 (Hpow H))) as (Hm0 & Hm1).
    specialize (Hm1 (fun H => proj2 (Hpow H))).
    pose proof (portfolio_constraints_nonincreasing self o
                  (mode_adjusted_kelly float_pow self o) bankroll
                  existing_positions Hm0) as Hpre.
    fold (pre_stress_kelly float_pow self o bankroll existing_positions) in Hpre.
    destruct (stress_test self); [| lra].
    apply stress_test_keeps_cap; [exact Hb | lra].
  - unfold calculate_optimal_position. rewrite Hvalid. simpl. lra.
Qed.

Lemma final_position_size_at_most_kelly_witness :
  (2160 < time_to_resolution long_dated_opportunity)%Z
  /\ final_position_size
       (calculate_optimal_position pow_whole default_optimizer
          long_dated_opportunity 1000 None)
     <= kelly_fraction
          (calculate_optimal_position pow_whole default_optimizer
             long_dated_opportunity 1000 None).
Proof.
  split; [reflexivity |].
  apply (final_position_size_at_most_kelly pow_whole default_optimizer
           long_dated_opportunity 1000 None).
  - split; [intros _; vm_compute; discriminate | reflexivity].
  - intros _. vm_compute. split; discriminate.
Defined.

(** ** Both paths of the multi-market entry point *)

Section InsertAll.

Variable f : MarketOpportunity -> KellyResult.

Lemma insert_all_cons (o : MarketOpportunity) (opps : list MarketOpportunity)
    (m : gmap string KellyResult) :
  insert_all f (o :: opps) m = insert_all f opps (<[market_id o := f o]> m).
Proof. reflexivity. Qed.

(** The keys afterwards: the keys before and the market ids of the list. *)
Lemma insert_all_dom (opps : list MarketOpportunity)
    (m : gmap string KellyResult) :
  dom (insert_all f opps m) = dom m ∪ list_to_set (map market_id opps).
Proof.
  revert m. induction opps as [| o rest IH]; intros m.
  - simpl. symmetry. apply (right_id_L ∅ (∪)).
  - rewrite insert_all_cons, IH, dom_insert_L. simpl.
    rewrite (assoc_L (∪)). f_equal. apply (comm_L (∪)).
Qed.

(** Every entry was there before or is [f] of an opportunity with that id. *)
Lemma insert_all_inv (opps : list MarketOpportunity)
    (m : gmap string KellyResult) (id : string) (r : KellyResult) :
  insert_all f opps m !! id = Some r ->
  m !! id = Some r \/ exists o, o ∈ opps /\ market_id o = id /\ r = f o.
Proof.
  revert m. induction opps as [| o rest IH]; intros m Hr.
  - left. exact Hr.
  - rewrite insert_all_cons in Hr.
    destruct (IH _ Hr) as [Hm | (o' & Hin & Hid & Heq)].
    + destruct (decide (market_id o = id)) as [Hsame | Hdiff].
      * subst id. rewrite lookup_insert_eq in Hm. injection Hm as <-.
        right. exists o. split; [left | auto].
      * left. rewrite lookup_insert_ne in Hm by exact Hdiff. exact Hm.
    + right. exists o'. split; [right; exact Hin | auto].
Qed.

Lemma insert_all_other (opps : list MarketOpportunity)
    (m : gmap string KellyResult) (id : string) :
  id ∉ map market_id opps -> insert_all f opps m !! id = m !! id.
Proof.
  revert m. induction opps as [| o rest IH]; intros m Hid.
  - reflexivity.
  - simpl in Hid. apply not_elem_of_cons in Hid as [Hne Hrest].
    rewrite insert_all_cons, IH by exact Hrest.
    apply lookup_insert_ne. congruence.
Qed.

(** With distinct market ids every opportunity keeps its own entry. *)
Lemma insert_all_nodup (opps : list MarketOpportunity)
    (m : gmap string KellyResult) (o : MarketOpportunity) :
  NoDup (map market_id opps) -> o ∈ opps ->
  insert_all f opps m !! market_id o = Some (f o).
Proof.
  revert m. induction opps as [| o' rest IH]; intros m Hnd Hin.
  - apply elem_of_nil in Hin. destruct Hin.
  - simpl in Hnd. apply NoDup_cons in Hnd as [Hfresh Hnd].
    rewrite insert_all_cons.
    apply elem_of_cons in Hin as [-> | Hin].
    + rewrite insert_all_other by exact Hfresh. apply lookup_insert_eq.
    + apply IH; assumption.
Qed.

End InsertAll.


(** The result loop of the correlated path is such a filling. *)
Lemma create_results_insert_all self (g : MarketOpportunity -> Q)
    (opps : list MarketOpportunity) (done : list Q)
    (m : gmap string KellyResult) :
  create_results self opps (List.length done) (done ++ map g opps)%list m
  = insert_all (fun o => correlated_result self (g o) o) opps m.
Proof.
  revert done m. induction opps as [| o rest IH]; intros done m.
  - reflexivity.
  - rewrite insert_all_cons. simpl create_results.
    change (map g (o :: rest)) with (g o :: map g rest).
    replace (List.nth (List.length done) (done ++ g o :: map g rest)%list 0)
      with (g o) by (symmetry; apply nth_middle).
    replace (done ++ g o :: map g rest)%list
      with ((done ++ [g o]) ++ map g rest)%list
      by (rewrite <- app_assoc; reflexivity).
    replace (S (List.length done)) with (List.length (done ++ [g o])%list)
      by (rewrite length_app; simpl; lia).
    apply IH.
Qed.

(** The correlated path either raises, exactly when the sum of the
    individual fractions is zero and above the budget, or fills the result
    dict with the budget-scaled fraction of every opportunity. *)
Lemma correlated_path_cases float_pow self (opps : list MarketOpportunity)
    corr (bankroll : Q) :
  let total := Py.sum (individual_fractions float_pow self opps bankroll) in
  (max_correlation_exposure self < total /\ total == 0
   /\ calculate_multi_market_kelly float_pow self opps (Some corr) bankroll
      = Py.Raised Py.ZeroDivisionError)
  \/ (~ (max_correlation_exposure self < total /\ total == 0)
      /\ calculate_multi_market_kelly float_pow self opps (Some corr) bankroll
         = Py.Returned
             (insert_all
                (fun o => correlated_result self
                            (budget_scaled_fraction float_pow self opps
                               bankroll o) o)
                opps ∅)).
Proof.
  cbv zeta. unfold calculate_multi_market_kelly.
  destruct (scale_to_budget_spec self
              (individual_fractions float_pow self opps bankroll))
    as [(Hgt & Hz & ->) | [(Hgt & Hne & ->) | (Hle & ->)]].
  - left. auto.
  - right. split; [intros [_ Hz]; exact (Hne Hz) |].
    f_equal. unfold individual_fractions. rewrite map_map.
    rewrite <- (create_results_insert_all self _ opps [] ∅). simpl.
    f_equal. apply map_ext. intros o. unfold budget_scaled_fraction.
    fold (individual_fractions float_pow self opps bankroll).
    apply ltb_true in Hgt. rewrite Hgt. reflexivity.
  - right. split; [intros [Hgt _]; lra |].
    f_equal. unfold individual_fractions.
    rewrite <- (create_results_insert_all self _ opps [] ∅). simpl.
    f_equal. apply map_ext. intros o. unfold budget_scaled_fraction.
    fold (individual_fractions float_pow self opps bankroll).
    apply ltb_false in Hle. rewrite Hle. reflexivity.
Qed.


(** X21. Without a correlation matrix, every entry of a returned result is
    the individual evaluation of an opportunity with that market id; with
    pairwise distinct ids every opportunity is found under its id with its
    own evaluation; an empty list gives an empty dict. *)
Theorem independent_path_entries float_pow self
    (opps : list MarketOpportunity) (bankroll : Q)
    (results : gmap string KellyResult) :
  calculate_multi_market_kelly float_pow self opps None bankroll
  = Py.Returned results ->
  (forall id r, results !! id = Some r ->
     exists o, o ∈ opps /\ market_id o = id
               /\ r = calculate_optimal_position float_pow self o bankroll
                        None)
  /\ (NoDup (map market_id opps) ->
      forall o, o ∈ opps ->
        results !! market_id o
        = Some (calculate_optimal_position float_pow self o bankroll None))
  /\ (opps = [] -> results = ∅).
Proof.
  intros Hret. injection Hret as <-.
  change (fold_left _ opps ∅)
    with (insert_all
            (fun o => calculate_optimal_position float_pow self o bankroll None)
            opps ∅).
  split; [| split].
  - intros id r Hr. apply insert_all_inv in Hr as [Hr | Hr]; [| exact Hr].
    rewrite lookup_empty in Hr. discriminate Hr.
  - intros Hnd o Hin. apply insert_all_nodup; assumption.
  - intros ->. reflexivity.
Qed.

Lemma independent_path_entries_witness :
  match calculate_multi_market_kelly pow_whole default_optimizer
          three_markets None 1000 with
  | Py.Returned results =>
      results !! "b"
      = Some (calculate_optimal_position pow_whole default_optimizer
                (demo_as "b") 1000 None)
  | Py.Raised _ => False
  end.
Proof.
  destruct (calculate_multi_market_kelly pow_whole default_optimizer
              three_markets None 1000) as [results | e] eqn:Hret.
  - destruct (independent_path_entries pow_whole default_optimizer
                three_markets 1000 results Hret) as (_ & Hown & _).
    assert (Hnd : NoDup (map market_id three_markets))
      by (apply (bool_decide_unpack _); vm_compute; exact I).
    apply (Hown Hnd (demo_as "b")). right; left.
  - discriminate Hret.
Defined.

(** X22. With a correlation matrix and opportunities within the float range,
    the call raises ZeroDivisionError exactly when the individual fractions
    sum to zero and the budget [max_correlation_exposure] is below that;
    with a non-negative budget it never raises ZeroDivisionError. *)
Theorem correlated_path_raises_iff float_pow self
    (opps : list MarketOpportunity) corr (bankroll : Q) :
  Forall within_float_range opps ->
  let total := Py.sum (individual_fractions float_pow self opps bankroll) in
  (calculate_multi_market_kelly float_pow self opps (Some corr) bankroll
   = Py.Raised Py.ZeroDivisionError
   <-> max_correlation_exposure self < total /\ total == 0)
  /\ (0 <= max_correlation_exposure self ->
      calculate_multi_market_kelly float_pow self opps (Some corr) bankroll
      <> Py.Raised Py.ZeroDivisionError).
Proof.
  intros _. cbv zeta.
  destruct (correlated_path_cases float_pow self opps corr bankroll)
    as [(Hgt & Hz & Hraise) | (Hno & Hret)]; rewrite ?Hraise, ?Hret.
  - split; [split; auto |]. intros Hb. lra.
  - split; [split; [discriminate | intros H; destruct (Hno H)] |].
    intros _. discriminate.
Qed.

(** A negative budget and one opportunity whose fraction is 0. *)
Lemma correlated_path_raises_iff_witness :
  Forall within_float_range [low_confidence_opportunity]
  /\ calculate_multi_market_kelly pow_whole negative_budget_optimizer
       [low_confidence_opportunity] (Some []) 1000
     = Py.Raised Py.ZeroDivisionError.
Proof.
  assert (Hr : Forall within_float_range [low_confidence_opportunity]).
  { constructor; [| constructor].
    split; [intros _; vm_compute; discriminate | reflexivity]. }
  split; [exact Hr |].
  destruct (correlated_path_raises_iff pow_whole negative_budget_optimizer
              [low_confidence_opportunity] [] 1000 Hr) as ((_ & Hraise) & _).
  apply Hraise. split; vm_compute; reflexivity.
Defined.

(** X23. Whichever path is taken, the keys of a returned result dict are
    exactly the market ids of the opportunities: repeated ids share one
    entry and no other key appears. *)
Theorem result_keys float_pow self (opps : list MarketOpportunity)
    (correlations : option (list (list Q))) (bankroll : Q)
    (results : gmap string KellyResult) :
  calculate_multi_market_kelly float_pow self opps correlations bankroll
  = Py.Returned results ->
  dom results = list_to_set (map market_id opps).
Proof.
  intros Hret. destruct correlations as [corr |].
  - destruct (correlated_path_cases float_pow self opps corr bankroll)
      as [(_ & _ & Hraise) | (_ & Hfill)].
    + rewrite Hraise in Hret. discriminate Hret.
    + rewrite Hfill in Hret. injection Hret as <-.
      rewrite insert_all_dom, dom_empty_L. apply (left_id_L ∅ (∪)).
  - injection Hret as <-.
    change (dom (insert_all
                   (fun o => calculate_optimal_position float_pow self o
                               bankroll None) opps ∅)
            = list_to_set (map market_id opps)).
    rewrite insert_all_dom, dom_empty_L. apply (left_id_L ∅ (∪)).
Qed.

Lemma result_keys_witness :
  exists results,
    calculate_multi_market_kelly pow_whole default_optimizer repeated_market
      (Some []) 1000 = Py.Returned results
    /\ dom results = list_to_set (map market_id repeated_market).
Proof.
  eexists. split; [vm_compute; reflexivity |].
  apply (result_keys pow_whole default_optimizer repeated_market (Some [])
           1000).
  vm_compute. reflexivity.
Defined.



(** X26. No result returned by [calculate_multi_market_kelly], on either
    path, recommends BUY_NO. *)
Theorem multi_market_never_buy_no float_pow self
    (opps : list MarketOpportunity) (correlations : option (list (list Q)))
    (bankroll : Q) (results : gmap string KellyResult) (id : string)
    (r : KellyResult) :
  calculate_multi_market_kelly float_pow self opps correlations bankroll
  = Py.Returned results ->
  results !! id = Some r ->
  recommendation r = "HOLD" \/ recommendation r = "BUY_YES"
  \/ recommendation r = "SMALL_BUY".
Proof.
  intros Hret Hr. destruct correlations as [corr |].
  - destruct (correlated_path_cases float_pow self opps corr bankroll)
      as [(_ & _ & Hraise) | (_ & Hfill)].
    + rewrite Hraise in Hret. discriminate Hret.
    + rewrite Hfill in Hret. injection Hret as <-.
      apply insert_all_inv in Hr as [Hr | (o & _ & _ & ->)].
      * rewrite lookup_empty in Hr. discriminate Hr.
      * apply recommendation_of_expected_value.
  - injection Hret as <-.
    change (insert_all
              (fun o => calculate_optimal_position float_pow self o bankroll
                          None) opps ∅ !! id = Some r) in Hr.
    apply insert_all_inv in Hr as [Hr | (o & _ & _ & ->)].
    + rewrite lookup_empty in Hr. discriminate Hr.
    + apply optimal_position_recommendation.
Qed.

Lemma multi_market_never_buy_no_witness :
  exists results r,
    calculate_multi_market_kelly pow_whole default_optimizer
      [demo_opportunity] (Some []) 1000 = Py.Returned results
    /\ results !! "btc_100k_2024" = Some r
    /\ (recommendation r = "HOLD" \/ recommendation r = "BUY_YES"
        \/ recommendation r = "SMALL_BUY").
Proof.
  eexists. eexists.
  split; [vm_compute; reflexivity |].
  split; [vm_compute; reflexivity |].
  eapply (multi_market_never_buy_no pow_whole default_optimizer
            [demo_opportunity] (Some []) 1000) with (id := "btc_100k_2024");
    vm_compute; reflexivity.
Defined.

(** ** The reasoning string *)

Lemma string_app_assoc (s t u : string) : (s +:+ t) +:+ u = s +:+ (t +:+ u).
Proof.
  induction s as [| c s IH]; [reflexivity |].
  change (String c ((s +:+ t) +:+ u) = String c (s +:+ (t +:+ u))).
  f_equal. exact IH.
Qed.

(** Joining a non-empty list and one more part. *)
Lemma join_snoc (sep : string) (parts : list string) (x : string) :
  parts <> [] ->
  join sep (parts ++ [x])%list = join sep parts +:+ (sep +:+ x).
Proof.
  induction parts as [| a [| b rest] IH]; intros Hne.
  - destruct Hne. reflexivity.
  - reflexivity.
  - change (join sep ((a :: b :: rest) ++ [x])%list)
      with (a +:+ sep +:+ join sep ((b :: rest) ++ [x])%list).
    rewrite IH by discriminate.
    change (join sep (a :: b :: rest))
      with (a +:+ sep +:+ join sep (b :: rest)).
    rewrite !string_app_assoc. reflexivity.
Qed.

(** X27. Whenever the final fraction handed to the reasoning is below 0.01,
    the reasoning string ends with the note
    " | Position too small - recommend HOLD", and the recommendation
    computed from the same fraction is HOLD: the audit trail and the
    recommendation never disagree on a position that is too small. *)
Theorem small_position_note self
    (base_kelly confidence_penalty risk_penalty final_kelly expected_value : Q)
    (o : MarketOpportunity) :
  final_kelly < 0.01 ->
  _generate_recommendation self final_kelly expected_value o = "HOLD"
  /\ exists trace,
       _generate_reasoning self base_kelly confidence_penalty risk_penalty
         final_kelly o
       = trace +:+ " | Position too small - recommend HOLD".
Proof.
  intros Hsmall. apply ltb_true in Hsmall.
  split.
  - unfold _generate_recommendation. rewrite Hsmall. reflexivity.
  - unfold _generate_reasoning. cbv zeta. rewrite Hsmall.
    rewrite !app_assoc.
    eexists. rewrite join_snoc; [reflexivity |].
    intros Hnil. apply (f_equal (@List.length string)) in Hnil.
    rewrite !length_app in Hnil. simpl in Hnil. lia.
Qed.

Lemma small_position_note_witness :
  0.005 < 0.01
  /\ exists trace,
       _generate_reasoning default_optimizer 0.569 1 0 0.005
         low_confidence_opportunity
       = trace +:+ " | Position too small - recommend HOLD".
Proof.
  split; [reflexivity |].
  apply (small_position_note default_optimizer 0.569 1 0 0.005 0
           low_confidence_opportunity).
  reflexivity.
Defined.
